(** * Electra Smart integration: polling, command dispatch and setup wizard

    A shallow embedding of [custom_components/electrasmart/climate.py] and
    [custom_components/electrasmart/config_flow.py].

    The two Python modules are glue between a host platform
    (homeassistant) and a vendor client library (electrasmart).  Everything
    the modules import from those two packages, and from the integration's
    own [const] module, is a parameter of the development; the calls into
    the vendor API are oracles handed to each callback; [time.time()] is an
    argument.  Object state is threaded explicitly through a small
    state/exception/trace monad, so that the definitions can be read next
    to the Python they embed. *)

From stdpp Require Import gmap strings list pretty.

Open Scope Z_scope.

(** ** Python runtime: exceptions, [str.__contains__], dict literals *)

Module Py.

(** The exception classes the two modules raise or catch. *)
Inductive exn : Type :=
| ElectraApiError (msg : string)
| HomeAssistantError (msg : string)
| ConfigEntryAuthFailed (msg : string)
| ConfigEntryNotReady (msg : string)
| AbortFlow (reason : string)
| KeyError.

Inductive result (A : Type) : Type :=
| Return (a : A)
| Raise (e : exn).
Arguments Return {A} a.
Arguments Raise {A} e.

(** [s.startswith(p)] *)
Fixpoint startswith (s p : string) {struct p} : bool :=
  match p with
  | EmptyString => true
  | String c p' =>
      match s with
      | EmptyString => false
      | String d s' => if Ascii.eqb c d then startswith s' p' else false
      end
  end.

(** [needle in hay] on two [str] values: substring search. *)
Fixpoint str_in (needle hay : string) : bool :=
  startswith hay needle
  || match hay with
     | EmptyString => false
     | String _ hay' => str_in needle hay'
     end.

(** A dict display [{k1: v1, ..., kn: vn}]: the pairs are stored from left
    to right, a later pair replacing an earlier one with an equal key. *)
Definition dict `{Countable K} {V : Type} (items : list (K * V)) : gmap K V :=
  foldl (fun d kv => <[kv.1 := kv.2]> d) ∅ items.

(** [d[k]]: a missing key raises [KeyError]. *)
Definition getitem `{Countable K} {V : Type} (d : gmap K V) (k : K) : result V :=
  match d !! k with
  | Some v => Return v
  | None => Raise KeyError
  end.

(** Truth value of an [int]. *)
Definition truthy (n : Z) : bool := negb (n =? 0).

End Py.
Export Py.

(** ** Host platform (homeassistant) *)

Module HVACMode.
Inductive t : Type := OFF | HEAT | COOL | HEAT_COOL | AUTO | DRY | FAN_ONLY.

#[global] Instance eq_dec : EqDecision t.
Proof. solve_decision. Defined.

Definition to_nat (m : t) : nat :=
  match m with
  | OFF => 0 | HEAT => 1 | COOL => 2 | HEAT_COOL => 3
  | AUTO => 4 | DRY => 5 | FAN_ONLY => 6
  end%nat.

Definition of_nat (n : nat) : option t :=
  match n with
  | 0 => Some OFF | 1 => Some HEAT | 2 => Some COOL | 3 => Some HEAT_COOL
  | 4 => Some AUTO | 5 => Some DRY | 6 => Some FAN_ONLY | _ => None
  end%nat.

#[global] Instance countable : Countable t.
Proof. apply (inj_countable to_nat of_nat). intros []; reflexivity. Defined.
End HVACMode.

Module HVACAction.
Inductive t : Type := COOLING | DRYING | FAN | HEATING | IDLE | OFF.

#[global] Instance eq_dec : EqDecision t.
Proof. solve_decision. Defined.
End HVACAction.

(** String constants of [homeassistant.components.climate.const] and
    [homeassistant.const] that the integration imports. *)
Class Hass : Type := {
  FAN_AUTO : string;
  FAN_HIGH : string;
  FAN_LOW : string;
  FAN_MEDIUM : string;
  SWING_BOTH : string;
  SWING_HORIZONTAL : string;
  SWING_OFF : string;
  SWING_VERTICAL : string;
  CONF_TOKEN : string;
}.

(** ** Vendor client library (electrasmart) *)

(** What the entity reads from the vendor's device object: the values of
    its getters, and the age of the last contact that [is_disconnected]
    inspects. *)
Record ElectraAirConditioner : Type := {
  name : string;
  mac : string;
  get_fan_speed : string;
  get_sensor_temperature : Z;
  get_temperature : Z;
  is_on : bool;
  get_mode : string;
  is_horizontal_swing : bool;
  is_vertical_swing : bool;
  get_shabat_mode : bool;
  time_delta : Z;
}.

(** A decoded API acknowledgment: [resp[STATUS]], [resp[DATA][RES]] and
    [resp[DATA][TOKEN]]. *)
Record ApiResponse : Type := {
  resp_status : Z;
  resp_res : Z;
  resp_token : string;
}.

(** Constants and pure helpers of the vendor library. *)
Class ElectraLib : Type := {
  (* electrasmart.device.OperationMode *)
  MODE_COOL : string;
  MODE_HEAT : string;
  MODE_FAN : string;
  MODE_DRY : string;
  MODE_AUTO : string;
  FAN_SPEED_AUTO : string;
  FAN_SPEED_LOW : string;
  FAN_SPEED_MED : string;
  FAN_SPEED_HIGH : string;
  (* electrasmart.api *)
  STATUS_SUCCESS : Z;
  INTRUDER_LOCKOUT : string;
  (* ElectraAirConditioner.is_disconnected(thresh) *)
  is_disconnected : ElectraAirConditioner -> Z -> bool;
  (* str(resp), as an f-string renders the acknowledgment *)
  str_resp : ApiResponse -> string;
}.

(** The vendor API object, as the callbacks use it.  A call returns or
    raises; the device object handed to a call may be updated in place, so
    a call on a device also yields the device as it is afterwards. *)
Record ElectraAPI : Type := {
  api_get_devices : result (list ElectraAirConditioner);
  api_get_last_telemtry :
    ElectraAirConditioner -> result unit * ElectraAirConditioner;
  api_set_state :
    ElectraAirConditioner -> result ApiResponse * ElectraAirConditioner;
  api_generate_new_token :
    option string -> option string -> result ApiResponse;
  api_validate_one_time_password :
    option string -> option string -> option string -> result ApiResponse;
}.

(** ** The integration's own [const] module *)

Class Const : Type := {
  API_DELAY : Z;
  CONSECUTIVE_FAILURE_THRESHOLD : Z;
  UNAVAILABLE_THRESH_SEC : Z;
  PRESET_NONE : string;
  PRESET_SHABAT : string;
  CONF_IMEI : string;
  CONF_OTP : string;
  CONF_PHONE_NUMBER : string;
}.

(** ** Object state *)

(** [ElectraClimate]: the attributes the callbacks read or assign.  A
    display attribute that was never assigned is [None]. *)
Record ElectraClimate : Type := {
  _electra_ac_device : ElectraAirConditioner;
  _attr_name : string;
  _last_state_update : Z;
  _consecutive_failures : Z;
  _skip_update : bool;
  _available : bool;
  _attr_available : bool;
  _attr_fan_mode : option string;
  _attr_current_temperature : option Z;
  _attr_target_temperature : option Z;
  _attr_hvac_mode : option HVACMode.t;
  _attr_hvac_action : option HVACAction.t;
  _attr_swing_mode : option string;
  _attr_preset_mode : option string;
}.

(** [ConfigFlow]: the wizard's session fields. *)
Record ConfigFlow : Type := {
  _phone_number : option string;
  _otp : option string;
  _imei : option string;
  _token : option string;
  unique_id : option string;
}.

(** What a wizard step hands back to the host. *)
Inductive FlowResult : Type :=
| async_show_form (step_id : string) (data_schema : gmap string (option string))
    (errors : gmap string string)
| async_create_entry (title : option string) (data : gmap string (option string)).

(** ** Effects *)

Inductive level : Type := DEBUG | WARNING | ERROR.

(** Observable actions of a callback, in the order they happen.  A log
    record is identified by its level and format string. *)
Inductive event : Type :=
| Log (lvl : level) (fmt : string)
| GetLastTelemtry (device : ElectraAirConditioner)
| SetState (device : ElectraAirConditioner)
| WriteHaState (entity : ElectraClimate)
| GenerateNewToken (phone_number imei : option string)
| ValidateOneTimePassword (otp imei phone_number : option string).

(** A callback on an object of type [S]: it runs from a state of the
    object, returns or raises, leaves the object in a state (assignments
    made before an exception stay), and emits a trace. *)
Definition M (S A : Type) : Type := S -> result A * S * list event.

Definition ret {S A} (a : A) : M S A := fun s => (Return a, s, []).

Definition raise {S A} (e : exn) : M S A := fun s => (Raise e, s, []).

Definition bind {S A B} (m : M S A) (k : A -> M S B) : M S B :=
  fun s =>
    match m s with
    | (Return a, s1, t1) =>
        match k a s1 with (r, s2, t2) => (r, s2, t1 ++ t2) end
    | (Raise e, s1, t1) => (Raise e, s1, t1)
    end.

Definition get {S A} (field : S -> A) : M S A := fun s => (Return (field s), s, []).

Definition assign {S} (update : S -> S) : M S unit := fun s => (Return tt, update s, []).

Definition emit {S} (e : event) : M S unit := fun s => (Return tt, s, [e]).

Definition lift {S A} (r : result A) : M S A := fun s => (r, s, []).

Declare Scope py_scope.
Delimit Scope py_scope with py.
Notation "x <- m ;; k" := (bind m (fun x => k))
  (at level 100, m at next level, right associativity) : py_scope.
Notation "m ;; k" := (bind m (fun _ => k))
  (at level 100, right associativity) : py_scope.

(** How control left the body of a [try] statement that did not raise. *)
Inductive completion : Type := Fallthrough | Returned.

(** [try: body / except ElectraApiError as exp: handler / else: orelse].
    The handler sees the text of the exception; any other exception
    propagates; [orelse] receives what the body produced. *)
Definition try_except_else {S A B} (body : M S A)
    (handler : string -> M S B) (orelse : A -> M S B) : M S B :=
  fun s =>
    match body s with
    | (Return a, s1, t1) =>
        match orelse a s1 with (r, s2, t2) => (r, s2, t1 ++ t2) end
    | (Raise (ElectraApiError exp), s1, t1) =>
        match handler exp s1 with (r, s2, t2) => (r, s2, t1 ++ t2) end
    | (Raise e, s1, t1) => (Raise e, s1, t1)
    end.

(** ** Attribute assignment

    [set_f v self] is [self] after [self.f = v]. *)

Definition set_electra_ac_device (v : ElectraAirConditioner) (self : ElectraClimate) : ElectraClimate :=
  {| _electra_ac_device := v;
     _attr_name := _attr_name self;
     _last_state_update := _last_state_update self;
     _consecutive_failures := _consecutive_failures self;
     _skip_update := _skip_update self;
     _available := _available self;
     _attr_available := _attr_available self;
     _attr_fan_mode := _attr_fan_mode self;
     _attr_current_temperature := _attr_current_temperature self;
     _attr_target_temperature := _attr_target_temperature self;
     _attr_hvac_mode := _attr_hvac_mode self;
     _attr_hvac_action := _attr_hvac_action self;
     _attr_swing_mode := _attr_swing_mode self;
     _attr_preset_mode := _attr_preset_mode self |}.

Definition set_last_state_update (v : Z) (self : ElectraClimate) : ElectraClimate :=
  {| _electra_ac_device := _electra_ac_device self;
     _attr_name := _attr_name self;
     _last_state_update := v;
     _consecutive_failures := _consecutive_failures self;
     _skip_update := _skip_update self;
     _available := _available self;
     _attr_available := _attr_available self;
     _attr_fan_mode := _attr_fan_mode self;
     _attr_current_temperature := _attr_current_temperature self;
     _attr_target_temperature := _attr_target_temperature self;
     _attr_hvac_mode := _attr_hvac_mode self;
     _attr_hvac_action := _attr_hvac_action self;
     _attr_swing_mode := _attr_swing_mode self;
     _attr_preset_mode := _attr_preset_mode self |}.

Definition set_consecutive_failures (v : Z) (self : ElectraClimate) : ElectraClimate :=
  {| _electra_ac_device := _electra_ac_device self;
     _attr_name := _attr_name self;
     _last_state_update := _last_state_update self;
     _consecutive_failures := v;
     _skip_update := _skip_update self;
     _available := _available self;
     _attr_available := _attr_available self;
     _attr_fan_mode := _attr_fan_mode self;
     _attr_current_temperature := _attr_current_temperature self;
     _attr_target_temperature := _attr_target_temperature self;
     _attr_hvac_mode := _attr_hvac_mode self;
     _attr_hvac_action := _attr_hvac_action self;
     _attr_swing_mode := _attr_swing_mode self;
     _attr_preset_mode := _attr_preset_mode self |}.

Definition set_skip_update (v : bool) (self : ElectraClimate) : ElectraClimate :=
  {| _electra_ac_device := _electra_ac_device self;
     _attr_name := _attr_name self;
     _last_state_update := _last_state_update self;
     _consecutive_failures := _consecutive_failures self;
     _skip_update := v;
     _available := _available self;
     _attr_available := _attr_available self;
     _attr_fan_mode := _attr_fan_mode self;
     _attr_current_temperature := _attr_current_temperature self;
     _attr_target_temperature := _attr_target_temperature self;
     _attr_hvac_mode := _attr_hvac_mode self;
     _attr_hvac_action := _attr_hvac_action self;
     _attr_swing_mode := _attr_swing_mode self;
     _attr_preset_mode := _attr_preset_mode self |}.

Definition set_available (v : bool) (self : ElectraClimate) : ElectraClimate :=
  {| _electra_ac_device := _electra_ac_device self;
     _attr_name := _attr_name self;
     _last_state_update := _last_state_update self;
     _consecutive_failures := _consecutive_failures self;
     _skip_update := _skip_update self;
     _available := v;
     _attr_available := _attr_available self;
     _attr_fan_mode := _attr_fan_mode self;
     _attr_current_temperature := _attr_current_temperature self;
     _attr_target_temperature := _attr_target_temperature self;
     _attr_hvac_mode := _attr_hvac_mode self;
     _attr_hvac_action := _attr_hvac_action self;
     _attr_swing_mode := _attr_swing_mode self;
     _attr_preset_mode := _attr_preset_mode self |}.

Definition set_attr_available (v : bool) (self : ElectraClimate) : ElectraClimate :=
  {| _electra_ac_device := _electra_ac_device self;
     _attr_name := _attr_name self;
     _last_state_update := _last_state_update self;
     _consecutive_failures := _consecutive_failures self;
     _skip_update := _skip_update self;
     _available := _available self;
     _attr_available := v;
     _attr_fan_mode := _attr_fan_mode self;
     _attr_current_temperature := _attr_current_temperature self;
     _attr_target_temperature := _attr_target_temperature self;
     _attr_hvac_mode := _attr_hvac_mode self;
     _attr_hvac_action := _attr_hvac_action self;
     _attr_swing_mode := _attr_swing_mode self;
     _attr_preset_mode := _attr_preset_mode self |}.

Definition set_attr_fan_mode (v : option string) (self : ElectraClimate) : ElectraClimate :=
  {| _electra_ac_device := _electra_ac_device self;
     _attr_name := _attr_name self;
     _last_state_update := _last_state_update self;
     _consecutive_failures := _consecutive_failures self;
     _skip_update := _skip_update self;
     _available := _available self;
     _attr_available := _attr_available self;
     _attr_fan_mode := v;
     _attr_current_temperature := _attr_current_temperature self;
     _attr_target_temperature := _attr_target_temperature self;
     _attr_hvac_mode := _attr_hvac_mode self;
     _attr_hvac_action := _attr_hvac_action self;
     _attr_swing_mode := _attr_swing_mode self;
     _attr_preset_mode := _attr_preset_mode self |}.

Definition set_attr_current_temperature (v : option Z) (self : ElectraClimate) : ElectraClimate :=
  {| _electra_ac_device := _electra_ac_device self;
     _attr_name := _attr_name self;
     _last_state_update := _last_state_update self;
     _consecutive_failures := _consecutive_failures self;
     _skip_update := _skip_update self;
     _available := _available self;
     _attr_available := _attr_available self;
     _attr_fan_mode := _attr_fan_mode self;
     _attr_current_temperature := v;
     _attr_target_temperature := _attr_target_temperature self;
     _attr_hvac_mode := _attr_hvac_mode self;
     _attr_hvac_action := _attr_hvac_action self;
     _attr_swing_mode := _attr_swing_mode self;
     _attr_preset_mode := _attr_preset_mode self |}.

Definition set_attr_target_temperature (v : option Z) (self : ElectraClimate) : ElectraClimate :=
  {| _electra_ac_device := _electra_ac_device self;
     _attr_name := _attr_name self;
     _last_state_update := _last_state_update self;
     _consecutive_failures := _consecutive_failures self;
     _skip_update := _skip_update self;
     _available := _available self;
     _attr_available := _attr_available self;
     _attr_fan_mode := _attr_fan_mode self;
     _attr_current_temperature := _attr_current_temperature self;
     _attr_target_temperature := v;
     _attr_hvac_mode := _attr_hvac_mode self;
     _attr_hvac_action := _attr_hvac_action self;
     _attr_swing_mode := _attr_swing_mode self;
     _attr_preset_mode := _attr_preset_mode self |}.

Definition set_attr_hvac_mode (v : option HVACMode.t) (self : ElectraClimate) : ElectraClimate :=
  {| _electra_ac_device := _electra_ac_device self;
     _attr_name := _attr_name self;
     _last_state_update := _last_state_update self;
     _consecutive_failures := _consecutive_failures self;
     _skip_update := _skip_update self;
     _available := _available self;
     _attr_available := _attr_available self;
     _attr_fan_mode := _attr_fan_mode self;
     _attr_current_temperature := _attr_current_temperature self;
     _attr_target_temperature := _attr_target_temperature self;
     _attr_hvac_mode := v;
     _attr_hvac_action := _attr_hvac_action self;
     _attr_swing_mode := _attr_swing_mode self;
     _attr_preset_mode := _attr_preset_mode self |}.

Definition set_attr_hvac_action (v : option HVACAction.t) (self : ElectraClimate) : ElectraClimate :=
  {| _electra_ac_device := _electra_ac_device self;
     _attr_name := _attr_name self;
     _last_state_update := _last_state_update self;
     _consecutive_failures := _consecutive_failures self;
     _skip_update := _skip_update self;
     _available := _available self;
     _attr_available := _attr_available self;
     _attr_fan_mode := _attr_fan_mode self;
     _attr_current_temperature := _attr_current_temperature self;
     _attr_target_temperature := _attr_target_temperature self;
     _attr_hvac_mode := _attr_hvac_mode self;
     _attr_hvac_action := v;
     _attr_swing_mode := _attr_swing_mode self;
     _attr_preset_mode := _attr_preset_mode self |}.

Definition set_attr_swing_mode (v : option string) (self : ElectraClimate) : ElectraClimate :=
  {| _electra_ac_device := _electra_ac_device self;
     _attr_name := _attr_name self;
     _last_state_update := _last_state_update self;
     _consecutive_failures := _consecutive_failures self;
     _skip_update := _skip_update self;
     _available := _available self;
     _attr_available := _attr_available self;
     _attr_fan_mode := _attr_fan_mode self;
     _attr_current_temperature := _attr_current_temperature self;
     _attr_target_temperature := _attr_target_temperature self;
     _attr_hvac_mode := _attr_hvac_mode self;
     _attr_hvac_action := _attr_hvac_action self;
     _attr_swing_mode := v;
     _attr_preset_mode := _attr_preset_mode self |}.

Definition set_attr_preset_mode (v : option string) (self : ElectraClimate) : ElectraClimate :=
  {| _electra_ac_device := _electra_ac_device self;
     _attr_name := _attr_name self;
     _last_state_update := _last_state_update self;
     _consecutive_failures := _consecutive_failures self;
     _skip_update := _skip_update self;
     _available := _available self;
     _attr_available := _attr_available self;
     _attr_fan_mode := _attr_fan_mode self;
     _attr_current_temperature := _attr_current_temperature self;
     _attr_target_temperature := _attr_target_temperature self;
     _attr_hvac_mode := _attr_hvac_mode self;
     _attr_hvac_action := _attr_hvac_action self;
     _attr_swing_mode := _attr_swing_mode self;
     _attr_preset_mode := v |}.

Definition set_phone_number (v : option string) (self : ConfigFlow) : ConfigFlow :=
  {| _phone_number := v;
     _otp := _otp self;
     _imei := _imei self;
     _token := _token self;
     unique_id := unique_id self |}.

Definition set_otp (v : option string) (self : ConfigFlow) : ConfigFlow :=
  {| _phone_number := _phone_number self;
     _otp := v;
     _imei := _imei self;
     _token := _token self;
     unique_id := unique_id self |}.

Definition set_imei (v : option string) (self : ConfigFlow) : ConfigFlow :=
  {| _phone_number := _phone_number self;
     _otp := _otp self;
     _imei := v;
     _token := _token self;
     unique_id := unique_id self |}.

Definition set_token (v : option string) (self : ConfigFlow) : ConfigFlow :=
  {| _phone_number := _phone_number self;
     _otp := _otp self;
     _imei := _imei self;
     _token := v;
     unique_id := unique_id self |}.

Definition set_unique_id (v : option string) (self : ConfigFlow) : ConfigFlow :=
  {| _phone_number := _phone_number self;
     _otp := _otp self;
     _imei := _imei self;
     _token := _token self;
     unique_id := v |}.

(** ** climate.py *)

Section Climate.
Context {hass : Hass} {lib : ElectraLib} {const : Const}.

Local Open Scope py_scope.

Definition FAN_ELECTRA_TO_HASS : gmap string string :=
  dict [ (FAN_SPEED_AUTO, FAN_AUTO);
         (FAN_SPEED_LOW, FAN_LOW);
         (FAN_SPEED_MED, FAN_MEDIUM);
         (FAN_SPEED_HIGH, FAN_HIGH) ].

Definition FAN_HASS_TO_ELECTRA : gmap string string :=
  dict [ (FAN_AUTO, FAN_SPEED_AUTO);
         (FAN_LOW, FAN_SPEED_LOW);
         (FAN_MEDIUM, FAN_SPEED_MED);
         (FAN_HIGH, FAN_SPEED_HIGH) ].

Definition HVAC_MODE_ELECTRA_TO_HASS : gmap string HVACMode.t :=
  dict [ (MODE_COOL, HVACMode.COOL);
         (MODE_HEAT, HVACMode.HEAT);
         (MODE_FAN, HVACMode.FAN_ONLY);
         (MODE_DRY, HVACMode.DRY);
         (MODE_AUTO, HVACMode.AUTO) ].

Definition HVAC_MODE_HASS_TO_ELECTRA : gmap HVACMode.t string :=
  dict [ (HVACMode.COOL, MODE_COOL);
         (HVACMode.HEAT, MODE_HEAT);
         (HVACMode.FAN_ONLY, MODE_FAN);
         (HVACMode.DRY, MODE_DRY);
         (HVACMode.AUTO, MODE_AUTO) ].

Definition HVAC_ACTION_ELECTRA_TO_HASS : gmap string HVACAction.t :=
  dict [ (MODE_COOL, HVACAction.COOLING);
         (MODE_HEAT, HVACAction.HEATING);
         (MODE_FAN, HVACAction.FAN);
         (MODE_DRY, HVACAction.DRYING) ].

(** [get_devices(api)] *)
Definition get_devices (api : ElectraAPI) : M unit (list ElectraAirConditioner) :=
  emit (Log DEBUG "Fetching Electra AC devices") ;;
  try_except_else (lift (api_get_devices api))
    (fun exp =>
       let err_message := "Error communicating with API: " +:+ exp in
       if str_in "client error" err_message then
         raise (ConfigEntryNotReady
                  (err_message +:+ ", Check your internet connection."))
       else if str_in INTRUDER_LOCKOUT err_message then
         raise (ConfigEntryAuthFailed
                  (err_message
                   +:+ ", You must re-authenticate by adding the integration again"))
       else raise (ConfigEntryNotReady err_message))
    ret.

(** [ElectraClimate.__init__], for the attributes of the record (the
    static capability lists are not carried). *)
Definition ElectraClimate__init__ (device : ElectraAirConditioner) : ElectraClimate :=
  {| _electra_ac_device := device;
     _attr_name := name device;
     _last_state_update := 0;
     _consecutive_failures := 0;
     _skip_update := true;
     _available := true;
     _attr_available := negb (is_disconnected device UNAVAILABLE_THRESH_SEC);
     _attr_fan_mode := None;
     _attr_current_temperature := None;
     _attr_target_temperature := None;
     _attr_hvac_mode := None;
     _attr_hvac_action := None;
     _attr_swing_mode := None;
     _attr_preset_mode := None |}.

(** [self._fan_modes] as [__init__] lists them. *)
Definition _attr_fan_modes : list string := [FAN_AUTO; FAN_HIGH; FAN_MEDIUM; FAN_LOW].

(** [self._attr_hvac_modes] as [__init__] lists them. *)
Definition _attr_hvac_modes : list HVACMode.t :=
  [HVACMode.OFF; HVACMode.HEAT; HVACMode.COOL; HVACMode.DRY;
   HVACMode.FAN_ONLY; HVACMode.AUTO].

(** [await self._api.get_last_telemtry(self._electra_ac_device)] *)
Definition get_last_telemtry (api : ElectraAPI) : M ElectraClimate unit :=
  fun self =>
    let device := _electra_ac_device self in
    let '(r, device') := api_get_last_telemtry api device in
    (r, set_electra_ac_device device' self, [GetLastTelemtry device]).

(** [await self._api.set_state(self._electra_ac_device)] *)
Definition set_state (api : ElectraAPI) : M ElectraClimate ApiResponse :=
  fun self =>
    let device := _electra_ac_device self in
    let '(r, device') := api_set_state api device in
    (r, set_electra_ac_device device' self, [SetState device]).

(** [self._async_write_ha_state()]: the host records the entity as it is. *)
Definition _async_write_ha_state : M ElectraClimate unit :=
  fun self => (Return tt, self, [WriteHaState self]).

(** [ElectraClimate._update_device_attrs] *)
Definition _update_device_attrs : M ElectraClimate unit :=
  device <- get _electra_ac_device ;;
  fan_mode <- lift (getitem FAN_ELECTRA_TO_HASS (get_fan_speed device)) ;;
  assign (set_attr_fan_mode (Some fan_mode)) ;;
  assign (set_attr_current_temperature (Some (get_sensor_temperature device))) ;;
  assign (set_attr_target_temperature (Some (get_temperature device))) ;;
  hvac_mode <- (if negb (is_on device) then ret HVACMode.OFF
                else lift (getitem HVAC_MODE_ELECTRA_TO_HASS (get_mode device))) ;;
  assign (set_attr_hvac_mode (Some hvac_mode)) ;;
  (if String.eqb (get_mode device) MODE_AUTO then
     assign (set_attr_hvac_action None)
   else
     hvac_action <- (if negb (is_on device) then ret HVACAction.OFF
                     else lift (getitem HVAC_ACTION_ELECTRA_TO_HASS
                                  (get_mode device))) ;;
     assign (set_attr_hvac_action (Some hvac_action))) ;;
  (if is_horizontal_swing device && is_vertical_swing device then
     assign (set_attr_swing_mode (Some SWING_BOTH))
   else if is_horizontal_swing device then
     assign (set_attr_swing_mode (Some SWING_HORIZONTAL))
   else if is_vertical_swing device then
     assign (set_attr_swing_mode (Some SWING_VERTICAL))
   else
     assign (set_attr_swing_mode (Some SWING_OFF))) ;;
  assign (set_attr_preset_mode
            (Some (if get_shabat_mode device then PRESET_SHABAT else PRESET_NONE))).

(** [ElectraClimate.async_update], at clock reading [now = int(time.time())].
    The body of the [try] statement yields [Returned] where the Python
    executes [return]: the [else] suite is then not run. *)
Definition async_update (now : Z) (api : ElectraAPI) : M ElectraClimate unit :=
  last_state_update <- get _last_state_update ;;
  if truthy last_state_update && (now <? last_state_update + API_DELAY) then
    emit (Log DEBUG "Skipping state update, keeping old values")
  else
    assign (set_last_state_update 0) ;;
    try_except_else
      (skip_update <- get _skip_update ;;
       (if skip_update then assign (set_skip_update false)
        else get_last_telemtry api) ;;
       device <- get _electra_ac_device ;;
       if is_disconnected device UNAVAILABLE_THRESH_SEC then
         available <- get _available ;;
         (if available then
            emit (Log WARNING
                    "Electra AC %s (%s) is not available, check its status in the Electra Smart mobile app") ;;
            assign (set_available false)
          else ret tt) ;;
         assign (set_attr_available false) ;;
         ret Returned
       else
         available <- get _available ;;
         (if negb available then
            emit (Log WARNING "%s (%s) is now available") ;;
            assign (set_available true) ;;
            assign (set_attr_available true)
          else ret tt) ;;
         emit (Log DEBUG "%s (%s) state updated: %s") ;;
         ret Fallthrough)
      (fun exp =>
         failures <- get _consecutive_failures ;;
         assign (set_consecutive_failures (failures + 1)) ;;
         emit (Log WARNING
                 "Failed to get %s state: %s (try #%i since last success), keeping old state") ;;
         failures <- get _consecutive_failures ;;
         if failures >=? CONSECUTIVE_FAILURE_THRESHOLD then
           device <- get _electra_ac_device ;;
           raise (HomeAssistantError
                    ("Failed to get " +:+ name device +:+ " state: " +:+ exp
                     +:+ " for the " +:+ pretty failures +:+ " time"))
         else ret tt)
      (fun how =>
         match how with
         | Returned => ret tt
         | Fallthrough =>
             assign (set_consecutive_failures 0) ;;
             _update_device_attrs
         end).

(** [ElectraClimate._async_update_electra_ac_state], at clock reading
    [now = int(time.time())]. *)
Definition _async_update_electra_ac_state (now : Z) (api : ElectraAPI)
  : M ElectraClimate unit :=
  try_except_else (set_state api)
    (fun exp =>
       let err_message := "Error communicating with API: " +:+ exp in
       if str_in "client error" err_message then
         raise (HomeAssistantError
                  (err_message +:+ ", Check your internet connection."))
       else if str_in INTRUDER_LOCKOUT err_message then
         raise (ConfigEntryAuthFailed
                  (err_message
                   +:+ ", You must re-authenticate by adding the integration again"))
       else _async_write_ha_state)
    (fun resp =>
       if negb ((resp_status resp =? STATUS_SUCCESS)
                && (resp_res resp =? STATUS_SUCCESS)) then
         _async_write_ha_state ;;
         attr_name <- get _attr_name ;;
         raise (HomeAssistantError
                  ("Failed to update " +:+ attr_name +:+ ", error: "
                   +:+ str_resp resp))
       else
         _update_device_attrs ;;
         assign (set_last_state_update now) ;;
         _async_write_ha_state).

End Climate.

(** ** config_flow.py *)

(** The two host methods the wizard calls on itself before it contacts the
    API.  Either may raise [AbortFlow]; [async_set_unique_id] records the
    identifier when it returns. *)
Record FlowHost : Type := {
  host_set_unique_id : string -> result unit;
  host_abort_if_unique_id_configured : option string -> result unit;
}.

Section ConfigFlow.
Context {hass : Hass} {lib : ElectraLib} {const : Const}.

Local Open Scope py_scope.

(** [await self.async_set_unique_id(unique_id)] *)
Definition async_set_unique_id (host : FlowHost) (id : string) : M ConfigFlow unit :=
  lift (host_set_unique_id host id) ;;
  assign (set_unique_id (Some id)).

(** [self._abort_if_unique_id_configured()] *)
Definition _abort_if_unique_id_configured (host : FlowHost) : M ConfigFlow unit :=
  id <- get unique_id ;;
  lift (host_abort_if_unique_id_configured host id).

(** [await self._api.generate_new_token(self._phone_number, self._imei)] *)
Definition generate_new_token (api : ElectraAPI) : M ConfigFlow ApiResponse :=
  fun self =>
    (api_generate_new_token api (_phone_number self) (_imei self), self,
     [GenerateNewToken (_phone_number self) (_imei self)]).

(** [await self._api.validate_one_time_password(self._otp, self._imei,
    self._phone_number)] *)
Definition validate_one_time_password (api : ElectraAPI) : M ConfigFlow ApiResponse :=
  fun self =>
    (api_validate_one_time_password api
       (_otp self) (_imei self) (_phone_number self), self,
     [ValidateOneTimePassword (_otp self) (_imei self) (_phone_number self)]).

(** [ConfigFlow._show_setup_form].  A schema is the map from each required
    field to its default; [errors or {}] is [errors] unless it is [None]
    or empty. *)
Definition _show_setup_form (user_input : option (gmap string string))
    (errors : option (gmap string string)) (step_id : string)
  : M ConfigFlow FlowResult :=
  let user_input := default ∅ user_input in
  let schema : gmap string (option string) :=
    if String.eqb step_id "user" then
      dict [ (CONF_PHONE_NUMBER,
              Some (default "" (user_input !! CONF_PHONE_NUMBER))) ]
    else
      dict [ (CONF_OTP, Some (default "" (user_input !! CONF_OTP))) ] in
  ret (async_show_form step_id schema (default ∅ errors)).

(** [ConfigFlow._show_otp_form] *)
Definition _show_otp_form (user_input : option (gmap string string))
    (errors : option (gmap string string)) : M ConfigFlow FlowResult :=
  ret (async_show_form CONF_OTP (dict [ (CONF_OTP, None) ]) (default ∅ errors)).

(** [ConfigFlow._validate_one_time_password] *)
Definition _validate_one_time_password (api : ElectraAPI)
    (user_input : gmap string string) : M ConfigFlow FlowResult :=
  otp <- lift (getitem user_input CONF_OTP) ;;
  assign (set_otp (Some otp)) ;;
  try_except_else (validate_one_time_password api)
    (fun exp =>
       emit (Log ERROR "Failed to connect to API: %s") ;;
       _show_setup_form (Some user_input)
         (Some (dict [ ("base", "cannot_connect") ])) CONF_OTP)
    (fun resp =>
       if resp_res resp =? STATUS_SUCCESS then
         assign (set_token (Some (resp_token resp))) ;;
         token <- get _token ;;
         imei <- get _imei ;;
         phone_number <- get _phone_number ;;
         let data := dict [ (CONF_TOKEN, token);
                            (CONF_IMEI, imei);
                            (CONF_PHONE_NUMBER, phone_number) ] in
         ret (async_create_entry phone_number data)
       else
         _show_setup_form (Some user_input)
           (Some (dict [ (CONF_OTP, "invalid_auth") ])) CONF_OTP).

(** [ConfigFlow.async_step_one_time_password] *)
Definition async_step_one_time_password (api : ElectraAPI)
    (user_input : option (gmap string string))
    (errors : option (gmap string string)) : M ConfigFlow FlowResult :=
  let errors := match errors with None => Some ∅ | Some _ => errors end in
  match user_input with
  | None => _show_otp_form user_input errors
  | Some user_input => _validate_one_time_password api user_input
  end.

(** [ConfigFlow._validate_phone_number]; [imei] is what [generate_imei()]
    produced. *)
Definition _validate_phone_number (host : FlowHost) (api : ElectraAPI)
    (imei : string) (user_input : gmap string string) : M ConfigFlow FlowResult :=
  phone_number <- lift (getitem user_input CONF_PHONE_NUMBER) ;;
  assign (set_phone_number (Some phone_number)) ;;
  assign (set_imei (Some imei)) ;;
  id <- get unique_id ;;
  match id with
  | None =>
      async_set_unique_id host phone_number ;;
      _abort_if_unique_id_configured host
  | Some _ => ret tt
  end ;;
  try_except_else (generate_new_token api)
    (fun exp =>
       emit (Log ERROR "Failed to connect to API: %s") ;;
       _show_setup_form (Some user_input)
         (Some (dict [ ("base", "cannot_connect") ])) "user")
    (fun resp =>
       if resp_status resp =? STATUS_SUCCESS then
         if negb (resp_res resp =? STATUS_SUCCESS) then
           _show_setup_form (Some user_input)
             (Some (dict [ (CONF_PHONE_NUMBER, "invalid_phone_number") ])) "user"
         else async_step_one_time_password api None None
       else async_step_one_time_password api None None).

(** [ConfigFlow.async_step_user] *)
Definition async_step_user (host : FlowHost) (api : ElectraAPI) (imei : string)
    (user_input : option (gmap string string)) : M ConfigFlow FlowResult :=
  let errors : gmap string string := ∅ in
  match user_input with
  | None => _show_setup_form user_input (Some errors) "user"
  | Some user_input => _validate_phone_number host api imei user_input
  end.

(** [ConfigFlow.__init__] *)
Definition ConfigFlow__init__ : ConfigFlow :=
  {| _phone_number := None; _otp := None; _imei := None; _token := None;
     unique_id := None |}.

End ConfigFlow.

(** ** The host's side of the callbacks *)

Section Polling.
Context {hass : Hass} {lib : ElectraLib} {const : Const}.

(** The host calls [async_update] once per tick, whether or not the
    previous call raised.  A tick is a clock reading and the API as it
    behaves at that moment; the result of every call is collected. *)
Fixpoint poll_cycles (ticks : list (Z * ElectraAPI)) (self : ElectraClimate)
  : list (result unit) * ElectraClimate :=
  match ticks with
  | [] => ([], self)
  | (now, api) :: ticks' =>
      let '(r, self', _) := async_update now api self in
      let '(rs, self'') := poll_cycles ticks' self' in
      (r :: rs, self'')
  end.

(** The cached display attributes of the entity. *)
Definition display_attributes (self : ElectraClimate) :=
  (_attr_fan_mode self, _attr_current_temperature self,
   _attr_target_temperature self, _attr_hvac_mode self,
   _attr_hvac_action self, _attr_swing_mode self, _attr_preset_mode self,
   _attr_available self).

(** The poll is not inside the window that follows a command: no
    timestamp is pending, or [API_DELAY] seconds have passed since it. *)
Definition past_skip_window (now : Z) (self : ElectraClimate) : Prop :=
  _last_state_update self = 0 \/ _last_state_update self + API_DELAY <= now.

(** The wizard reaches the API: the flow already has a unique id, or the
    host accepts the phone number as a new one. *)
Definition not_aborted (host : FlowHost) (self : ConfigFlow)
    (phone_number : string) : Prop :=
  is_Some (unique_id self)
  \/ (host_set_unique_id host phone_number = Return tt
      /\ host_abort_if_unique_id_configured host (Some phone_number) = Return tt).

(** The telemetry call of a tick fails on every device. *)
Definition transport_failure (api : ElectraAPI) : Prop :=
  forall device, exists exp device',
    api_get_last_telemtry api device = (Raise (ElectraApiError exp), device').

End Polling.

(** ** climate.py: setup and command handlers *)

(** The rest of what the entity uses from the vendor's device object: its
    feature list entries and its setters.  A setter returns or raises and
    leaves the device in a state. *)
Class ElectraDevice : Type := {
  (* electrasmart.device.const.Feature *)
  Feature : Type;
  Feature_eq_dec :: EqDecision Feature;
  V_SWING : Feature;
  H_SWING : Feature;
  (* ElectraAirConditioner setters *)
  set_fan_speed :
    string -> ElectraAirConditioner -> result unit * ElectraAirConditioner;
  set_mode :
    string -> ElectraAirConditioner -> result unit * ElectraAirConditioner;
  turn_on : ElectraAirConditioner -> result unit * ElectraAirConditioner;
  turn_off : ElectraAirConditioner -> result unit * ElectraAirConditioner;
  set_temperature :
    Z -> ElectraAirConditioner -> result unit * ElectraAirConditioner;
  set_horizontal_swing :
    bool -> ElectraAirConditioner -> result unit * ElectraAirConditioner;
  set_vertical_swing :
    bool -> ElectraAirConditioner -> result unit * ElectraAirConditioner;
  set_shabat_mode :
    bool -> ElectraAirConditioner -> result unit * ElectraAirConditioner;
}.

(** The arguments of a host service call: values of any Python type, the
    key of the temperature argument ([homeassistant.const]), and [int(...)]
    on such a value, which returns or raises. *)
Class ServiceCall : Type := {
  Any : Type;
  int : Any -> result Z;
  ATTR_TEMPERATURE : string;
}.

Section Commands.
Context {hass : Hass} {lib : ElectraLib} {const : Const}
        {dev : ElectraDevice} {svc : ServiceCall}.

Local Open Scope py_scope.

(** [async_setup_entry]: the entities handed to [async_add_entities], one
    per discovered device. *)
Definition async_setup_entry (api : ElectraAPI) : M unit (list ElectraClimate) :=
  devices <- get_devices api ;;
  emit (Log DEBUG "Discovered %i Electra devices") ;;
  ret (map ElectraClimate__init__ devices).

(** [self._attr_swing_modes] as [__init__] builds it from
    [device.features]. *)
Definition _attr_swing_modes (features : list Feature) : list string :=
  let modes : list string := [] in
  let modes :=
    if bool_decide (V_SWING ∈ features) then modes ++ [SWING_VERTICAL]
    else modes in
  let modes :=
    if bool_decide (H_SWING ∈ features) then modes ++ [SWING_HORIZONTAL]
    else modes in
  let modes :=
    if bool_decide (SWING_HORIZONTAL ∈ modes)
       && bool_decide (SWING_VERTICAL ∈ modes)
    then modes ++ [SWING_BOTH]
    else modes in
  match modes with
  | [] => modes
  | _ :: _ => modes ++ [SWING_OFF]
  end.

(** A setter call [self._electra_ac_device.setter(...)]. *)
Definition device_call
    (setter : ElectraAirConditioner -> result unit * ElectraAirConditioner)
  : M ElectraClimate unit :=
  fun self =>
    let '(r, device') := setter (_electra_ac_device self) in
    (r, set_electra_ac_device device' self, []).

(** [ElectraClimate.async_set_fan_mode] *)
Definition async_set_fan_mode (now : Z) (api : ElectraAPI) (fan_mode : string)
  : M ElectraClimate unit :=
  mode <- lift (getitem FAN_HASS_TO_ELECTRA fan_mode) ;;
  device_call (set_fan_speed mode) ;;
  _async_update_electra_ac_state now api.

(** [ElectraClimate.async_set_hvac_mode] *)
Definition async_set_hvac_mode (now : Z) (api : ElectraAPI)
    (hvac_mode : HVACMode.t) : M ElectraClimate unit :=
  (if bool_decide (hvac_mode = HVACMode.OFF) then
     device_call turn_off
   else
     mode <- lift (getitem HVAC_MODE_HASS_TO_ELECTRA hvac_mode) ;;
     device_call (set_mode mode) ;;
     device_call turn_on) ;;
  _async_update_electra_ac_state now api.

(** [ElectraClimate.async_set_temperature] *)
Definition async_set_temperature (now : Z) (api : ElectraAPI)
    (kwargs : gmap string Any) : M ElectraClimate unit :=
  temperature <- lift (getitem kwargs ATTR_TEMPERATURE) ;;
  degrees <- lift (int temperature) ;;
  device_call (set_temperature degrees) ;;
  _async_update_electra_ac_state now api.

(** [ElectraClimate.async_set_swing_mode] *)
Definition async_set_swing_mode (now : Z) (api : ElectraAPI)
    (swing_mode : string) : M ElectraClimate unit :=
  (if String.eqb swing_mode SWING_BOTH then
     device_call (set_horizontal_swing true) ;;
     device_call (set_vertical_swing true)
   else if String.eqb swing_mode SWING_VERTICAL then
     device_call (set_horizontal_swing false) ;;
     device_call (set_vertical_swing true)
   else if String.eqb swing_mode SWING_HORIZONTAL then
     device_call (set_horizontal_swing true) ;;
     device_call (set_vertical_swing false)
   else
     device_call (set_horizontal_swing false) ;;
     device_call (set_vertical_swing false)) ;;
  _async_update_electra_ac_state now api.

(** [ElectraClimate.async_set_preset_mode] *)
Definition async_set_preset_mode (now : Z) (api : ElectraAPI)
    (preset_mode : string) : M ElectraClimate unit :=
  (if String.eqb preset_mode PRESET_SHABAT then
     device_call (set_shabat_mode true)
   else
     device_call (set_shabat_mode false)) ;;
  _async_update_electra_ac_state now api.

(** The vendor setters do what their names say: each returns, stores its
    argument where the matching getter reads it, and leaves alone what the
    getters of the other settings read. *)
Record lawful_setters : Prop := {
  set_fan_speed_ok : forall v d,
    exists d', set_fan_speed v d = (Return tt, d')
               /\ get_fan_speed d' = v
               /\ get_mode d' = get_mode d /\ is_on d' = is_on d;
  set_mode_ok : forall v d,
    exists d', set_mode v d = (Return tt, d')
               /\ get_mode d' = v
               /\ get_fan_speed d' = get_fan_speed d;
  turn_on_ok : forall d,
    exists d', turn_on d = (Return tt, d')
               /\ is_on d' = true
               /\ get_fan_speed d' = get_fan_speed d
               /\ get_mode d' = get_mode d;
  turn_off_ok : forall d,
    exists d', turn_off d = (Return tt, d')
               /\ is_on d' = false
               /\ get_fan_speed d' = get_fan_speed d
               /\ get_mode d' = get_mode d;
  set_horizontal_swing_ok : forall b d,
    exists d', set_horizontal_swing b d = (Return tt, d')
               /\ is_horizontal_swing d' = b
               /\ is_vertical_swing d' = is_vertical_swing d
               /\ get_fan_speed d' = get_fan_speed d
               /\ get_mode d' = get_mode d /\ is_on d' = is_on d;
  set_vertical_swing_ok : forall b d,
    exists d', set_vertical_swing b d = (Return tt, d')
               /\ is_vertical_swing d' = b
               /\ is_horizontal_swing d' = is_horizontal_swing d
               /\ get_fan_speed d' = get_fan_speed d
               /\ get_mode d' = get_mode d /\ is_on d' = is_on d;
}.

(** Every vendor value that [_update_device_attrs] has to translate for
    [device] is a key of its table. *)
Definition translatable (device : ElectraAirConditioner) : Prop :=
  is_Some (FAN_ELECTRA_TO_HASS !! get_fan_speed device)
  /\ (is_on device = true ->
      is_Some (HVAC_MODE_ELECTRA_TO_HASS !! get_mode device)
      /\ (String.eqb (get_mode device) MODE_AUTO = false ->
          is_Some (HVAC_ACTION_ELECTRA_TO_HASS !! get_mode device))).

(** The API acknowledges [set_state] in full and hands the device back as
    it received it. *)
Definition acknowledges (api : ElectraAPI) : Prop :=
  forall device, exists resp,
    api_set_state api device = (Return resp, device)
    /\ resp_status resp = STATUS_SUCCESS
    /\ resp_res resp = STATUS_SUCCESS.

(** A poll calls the telemetry API. *)
Definition fetches (t : list event) : Prop :=
  exists device, GetLastTelemtry device ∈ t.

(** A command writes the entity state to the host. *)
Definition writes_state (t : list event) : Prop :=
  exists entity, WriteHaState entity ∈ t.

(** A callback logs a warning. *)
Definition warns (t : list event) : Prop :=
  exists fmt, Log WARNING fmt ∈ t.

End Commands.

(** ** Sample environment

    Values for the imported constants, for evaluating the callbacks on
    concrete inputs.  No general theorem below depends on them. *)

Module Sample.

Definition hass : Hass :=
  {| FAN_AUTO := "auto"; FAN_HIGH := "high"; FAN_LOW := "low";
     FAN_MEDIUM := "medium";
     SWING_BOTH := "both"; SWING_HORIZONTAL := "horizontal";
     SWING_OFF := "off"; SWING_VERTICAL := "vertical";
     CONF_TOKEN := "token" |}.

Definition lib : ElectraLib :=
  {| MODE_COOL := "COOL"; MODE_HEAT := "HEAT"; MODE_FAN := "FAN";
     MODE_DRY := "DRY"; MODE_AUTO := "AUTO";
     FAN_SPEED_AUTO := "AUTO"; FAN_SPEED_LOW := "LOW";
     FAN_SPEED_MED := "MED"; FAN_SPEED_HIGH := "HIGH";
     STATUS_SUCCESS := 0;
     INTRUDER_LOCKOUT := "INTRUDER_LOCKOUT";
     is_disconnected := fun device thresh => thresh <? time_delta device;
     str_resp := fun resp =>
       "{'status': " +:+ pretty (resp_status resp)
       +:+ ", 'data': {'res': " +:+ pretty (resp_res resp) +:+ "}}" |}.

Definition const : Const :=
  {| API_DELAY := 5;
     CONSECUTIVE_FAILURE_THRESHOLD := 4;
     UNAVAILABLE_THRESH_SEC := 120;
     PRESET_NONE := "None"; PRESET_SHABAT := "Shabat";
     CONF_IMEI := "imei"; CONF_OTP := "one_time_password";
     CONF_PHONE_NUMBER := "phone_number" |}.

(** A device that is on, cooling at 24 degrees, with both louvres swinging. *)
Definition device : ElectraAirConditioner :=
  {| name := "Salon"; mac := "a1b2c3d4e5f6";
     get_fan_speed := "LOW";
     get_sensor_temperature := 27;
     get_temperature := 24;
     is_on := true;
     get_mode := "COOL";
     is_horizontal_swing := true;
     is_vertical_swing := true;
     get_shabat_mode := false;
     time_delta := 3 |}.

(** Telemetry of the same device a moment later: heating at 22 degrees,
    louvres at rest, schedule mode on. *)
Definition telemetry : ElectraAirConditioner :=
  {| name := "Salon"; mac := "a1b2c3d4e5f6";
     get_fan_speed := "HIGH";
     get_sensor_temperature := 29;
     get_temperature := 22;
     is_on := true;
     get_mode := "HEAT";
     is_horizontal_swing := false;
     is_vertical_swing := false;
     get_shabat_mode := true;
     time_delta := 2 |}.

(** The same telemetry, last heard of two minutes and a half ago. *)
Definition stale_telemetry : ElectraAirConditioner :=
  {| name := "Salon"; mac := "a1b2c3d4e5f6";
     get_fan_speed := "HIGH";
     get_sensor_temperature := 29;
     get_temperature := 22;
     is_on := true;
     get_mode := "HEAT";
     is_horizontal_swing := false;
     is_vertical_swing := false;
     get_shabat_mode := true;
     time_delta := 150 |}.

(** An API whose every call fails with the text [msg]. *)
Definition failing_api (msg : string) : ElectraAPI :=
  {| api_get_devices := Raise (ElectraApiError msg);
     api_get_last_telemtry := fun device => (Raise (ElectraApiError msg), device);
     api_set_state := fun device => (Raise (ElectraApiError msg), device);
     api_generate_new_token := fun _ _ => Raise (ElectraApiError msg);
     api_validate_one_time_password := fun _ _ _ => Raise (ElectraApiError msg) |}.

(** An API that reports [telemetry] for any device and acknowledges every
    request with [resp]. *)
Definition answering_api (telemetry : ElectraAirConditioner) (resp : ApiResponse)
  : ElectraAPI :=
  {| api_get_devices := Return [telemetry];
     api_get_last_telemtry := fun _ => (Return tt, telemetry);
     api_set_state := fun device => (Return resp, device);
     api_generate_new_token := fun _ _ => Return resp;
     api_validate_one_time_password := fun _ _ _ => Return resp |}.

(** A host on which no flow is in progress and nothing is configured. *)
Definition fresh_host : FlowHost :=
  {| host_set_unique_id := fun _ => Return tt;
     host_abort_if_unique_id_configured := fun _ => Return tt |}.

(** A full acknowledgment, and one whose result is a refusal. *)
Definition ack : ApiResponse :=
  {| resp_status := 0; resp_res := 0; resp_token := "tok-5f2a" |}.

Definition nack : ApiResponse :=
  {| resp_status := 0; resp_res := 1; resp_token := "" |}.


(** The entity for [device] once its first, fetch-free poll is over. *)
Definition entity : ElectraClimate :=
  {| _electra_ac_device := device;
     _attr_name := "Salon";
     _last_state_update := 0;
     _consecutive_failures := 0;
     _skip_update := false;
     _available := true;
     _attr_available := true;
     _attr_fan_mode := Some "low";
     _attr_current_temperature := Some 27;
     _attr_target_temperature := Some 24;
     _attr_hvac_mode := Some HVACMode.COOL;
     _attr_hvac_action := Some HVACAction.COOLING;
     _attr_swing_mode := Some "both";
     _attr_preset_mode := Some "None" |}.

#[local] Existing Instances hass lib const.

(** Four polls in a row that time out. *)
Definition four_timeouts : list (Z * ElectraAPI) :=
  [ (1700000030, failing_api "timeout");
    (1700000060, failing_api "timeout");
    (1700000090, failing_api "timeout");
    (1700000120, failing_api "timeout") ].

(** The entity right after a command that the API acknowledged in full at
    second 1700000000. *)
Definition entity_after_command : ElectraClimate :=
  (_async_update_electra_ac_state 1700000000 (answering_api telemetry ack) entity).1.2.

(** The sample entity with two failed polls on record. *)
Definition entity_failed_twice : ElectraClimate :=
  (poll_cycles (take 2 four_timeouts) entity).2.

(** What the user typed at each step. *)
Definition phone_input : gmap string string :=
  dict [ ("phone_number", "0501234567") ].

Definition otp_input : gmap string string :=
  dict [ ("one_time_password", "4821") ].

(** The wizard's session once the phone step has moved on to the OTP form. *)
Definition session : ConfigFlow :=
  (_validate_phone_number fresh_host (answering_api device ack)
     "356938035643809" phone_input ConfigFlow__init__).1.2.

(** The sample device with one setting replaced. *)
Definition with_fan_speed (v : string) (device : ElectraAirConditioner)
  : ElectraAirConditioner :=
  {| name := name device;
     mac := mac device;
     get_fan_speed := v;
     get_sensor_temperature := get_sensor_temperature device;
     get_temperature := get_temperature device;
     is_on := is_on device;
     get_mode := get_mode device;
     is_horizontal_swing := is_horizontal_swing device;
     is_vertical_swing := is_vertical_swing device;
     get_shabat_mode := get_shabat_mode device;
     time_delta := time_delta device |}.

Definition with_mode (v : string) (device : ElectraAirConditioner)
  : ElectraAirConditioner :=
  {| name := name device;
     mac := mac device;
     get_fan_speed := get_fan_speed device;
     get_sensor_temperature := get_sensor_temperature device;
     get_temperature := get_temperature device;
     is_on := is_on device;
     get_mode := v;
     is_horizontal_swing := is_horizontal_swing device;
     is_vertical_swing := is_vertical_swing device;
     get_shabat_mode := get_shabat_mode device;
     time_delta := time_delta device |}.

Definition with_power (v : bool) (device : ElectraAirConditioner)
  : ElectraAirConditioner :=
  {| name := name device;
     mac := mac device;
     get_fan_speed := get_fan_speed device;
     get_sensor_temperature := get_sensor_temperature device;
     get_temperature := get_temperature device;
     is_on := v;
     get_mode := get_mode device;
     is_horizontal_swing := is_horizontal_swing device;
     is_vertical_swing := is_vertical_swing device;
     get_shabat_mode := get_shabat_mode device;
     time_delta := time_delta device |}.

Definition with_temperature (v : Z) (device : ElectraAirConditioner)
  : ElectraAirConditioner :=
  {| name := name device;
     mac := mac device;
     get_fan_speed := get_fan_speed device;
     get_sensor_temperature := get_sensor_temperature device;
     get_temperature := v;
     is_on := is_on device;
     get_mode := get_mode device;
     is_horizontal_swing := is_horizontal_swing device;
     is_vertical_swing := is_vertical_swing device;
     get_shabat_mode := get_shabat_mode device;
     time_delta := time_delta device |}.

Definition with_horizontal_swing (v : bool) (device : ElectraAirConditioner)
  : ElectraAirConditioner :=
  {| name := name device;
     mac := mac device;
     get_fan_speed := get_fan_speed device;
     get_sensor_temperature := get_sensor_temperature device;
     get_temperature := get_temperature device;
     is_on := is_on device;
     get_mode := get_mode device;
     is_horizontal_swing := v;
     is_vertical_swing := is_vertical_swing device;
     get_shabat_mode := get_shabat_mode device;
     time_delta := time_delta device |}.

Definition with_vertical_swing (v : bool) (device : ElectraAirConditioner)
  : ElectraAirConditioner :=
  {| name := name device;
     mac := mac device;
     get_fan_speed := get_fan_speed device;
     get_sensor_temperature := get_sensor_temperature device;
     get_temperature := get_temperature device;
     is_on := is_on device;
     get_mode := get_mode device;
     is_horizontal_swing := is_horizontal_swing device;
     is_vertical_swing := v;
     get_shabat_mode := get_shabat_mode device;
     time_delta := time_delta device |}.

Definition with_shabat_mode (v : bool) (device : ElectraAirConditioner)
  : ElectraAirConditioner :=
  {| name := name device;
     mac := mac device;
     get_fan_speed := get_fan_speed device;
     get_sensor_temperature := get_sensor_temperature device;
     get_temperature := get_temperature device;
     is_on := is_on device;
     get_mode := get_mode device;
     is_horizontal_swing := is_horizontal_swing device;
     is_vertical_swing := is_vertical_swing device;
     get_shabat_mode := v;
     time_delta := time_delta device |}.

(** Setters that store their argument and always return. *)
Definition electra_device : ElectraDevice :=
  {| Feature := string;
     V_SWING := "V_SWING";
     H_SWING := "H_SWING";
     set_fan_speed := fun v device => (Return tt, with_fan_speed v device);
     set_mode := fun v device => (Return tt, with_mode v device);
     turn_on := fun device => (Return tt, with_power true device);
     turn_off := fun device => (Return tt, with_power false device);
     set_temperature := fun v device => (Return tt, with_temperature v device);
     set_horizontal_swing :=
       fun v device => (Return tt, with_horizontal_swing v device);
     set_vertical_swing :=
       fun v device => (Return tt, with_vertical_swing v device);
     set_shabat_mode := fun v device => (Return tt, with_shabat_mode v device) |}.

(** Service calls whose arguments are whole numbers. *)
Definition service_call : ServiceCall :=
  {| Any := Z; int := fun v => Return v; ATTR_TEMPERATURE := "temperature" |}.

#[local] Existing Instances electra_device service_call.

(** The sample device switched off, in a vendor mode no table knows. *)
Definition off_device : ElectraAirConditioner :=
  with_power false (with_mode "TURBO" device).

(** The sample device reporting a fan speed no table knows. *)
Definition turbo_device : ElectraAirConditioner :=
  with_fan_speed "TURBO" device.

(** An API whose telemetry call fails inside the client, with something
    other than [ElectraApiError]. *)
Definition broken_api : ElectraAPI :=
  {| api_get_devices := Raise KeyError;
     api_get_last_telemtry := fun device => (Raise KeyError, device);
     api_set_state := fun device => (Raise KeyError, device);
     api_generate_new_token := fun _ _ => Raise KeyError;
     api_validate_one_time_password := fun _ _ _ => Raise KeyError |}.

(** A host on which the phone number is already configured. *)
Definition busy_host : FlowHost :=
  {| host_set_unique_id := fun _ => Return tt;
     host_abort_if_unique_id_configured :=
       fun _ => Raise (AbortFlow "already_configured") |}.


End Sample.

(** * Properties *)

Section PyFacts.

Lemma truthy_nonzero (n : Z) : n <> 0 -> truthy n = true.
Proof. intros Hn. unfold truthy. apply negb_true_iff, Z.eqb_neq, Hn. Qed.

Lemma append_cons (c : Ascii.ascii) (p s : string) :
  String c p +:+ s = String c (p +:+ s).
Proof. reflexivity. Qed.

Lemma startswith_app (s p : string) : startswith (p +:+ s) p = true.
Proof.
  induction p as [|c p IH]; [reflexivity|].
  rewrite append_cons. cbn [startswith].
  rewrite Ascii.eqb_refl. exact IH.
Qed.

Lemma str_in_here (needle hay : string) :
  startswith hay needle = true -> str_in needle hay = true.
Proof. intros Hs. destruct hay; cbn [str_in]; rewrite Hs; reflexivity. Qed.

Lemma str_in_cons (needle : string) (c : Ascii.ascii) (hay : string) :
  str_in needle hay = true -> str_in needle (String c hay) = true.
Proof. intros Hin. cbn [str_in]. rewrite Hin. apply orb_true_r. Qed.

(** A substring of [hay] is a substring of [pre + hay]. *)
Lemma str_in_app_r (needle pre hay : string) :
  str_in needle hay = true -> str_in needle (pre +:+ hay) = true.
Proof.
  intros Hin. induction pre as [|c pre IH]; [exact Hin|].
  rewrite append_cons. apply str_in_cons, IH.
Qed.

Lemma startswith_spec (s p : string) :
  startswith s p = true <-> exists post, s = p +:+ post.
Proof.
  revert s. induction p as [|c p IH]; intros s.
  - split; [intros _; exists s; reflexivity | reflexivity].
  - destruct s as [|d s]; cbn [startswith].
    + split; [discriminate | intros [post Hs]; discriminate Hs].
    + destruct (Ascii.eqb_spec c d) as [<- | Hcd].
      * rewrite IH. split; intros [post Hs]; exists post.
        -- rewrite append_cons, Hs. reflexivity.
        -- rewrite append_cons in Hs. injection Hs as Hs. exact Hs.
      * split; [discriminate|]. intros [post Hs].
        rewrite append_cons in Hs. injection Hs as Hc _. congruence.
Qed.

(** [str_in] decides the substring relation, as [in] does on [str]. *)
Lemma str_in_spec (needle hay : string) :
  str_in needle hay = true
  <-> exists pre post, hay = pre +:+ needle +:+ post.
Proof.
  split.
  - induction hay as [|c hay IH]; cbn [str_in]; intros Hin;
      apply orb_true_iff in Hin as [Hhere | Hlater].
    + apply startswith_spec in Hhere as [post Hpost]. exists "", post. exact Hpost.
    + discriminate Hlater.
    + apply startswith_spec in Hhere as [post Hpost]. exists "", post. exact Hpost.
    + destruct (IH Hlater) as (pre & post & ->).
      exists (String c pre), post. rewrite append_cons. reflexivity.
  - intros (pre & post & ->).
    apply str_in_app_r, str_in_here, startswith_app.
Qed.

(** The fixed prefix of [err_message] neither contains ["client error"] nor
    ends with a beginning of it. *)
Lemma client_error_in_err_message (exp : string) :
  str_in "client error" ("Error communicating with API: " +:+ exp)
  = str_in "client error" exp.
Proof. cbv [String.append]. cbn. reflexivity. Qed.

End PyFacts.

(** ** Outcomes of the climate callbacks *)

(** Simplification that leaves the translation tables folded. *)
Ltac step :=
  cbn -[FAN_ELECTRA_TO_HASS FAN_HASS_TO_ELECTRA HVAC_MODE_ELECTRA_TO_HASS
        HVAC_MODE_HASS_TO_ELECTRA HVAC_ACTION_ELECTRA_TO_HASS].

Ltac run_attrs :=
  unfold bind, get, assign, emit, ret, raise, lift, try_except_else, getitem;
  step.

Ltac run_poll :=
  unfold bind, get, assign, emit, ret, raise, lift, try_except_else;
  cbn -[_update_device_attrs].

Section ClimateFacts.
Context {hass : Hass} {lib : ElectraLib} {const : Const}.

Lemma past_skip_window_test (now : Z) (self : ElectraClimate) :
  past_skip_window now self ->
  truthy (_last_state_update self)
  && (now <? _last_state_update self + API_DELAY) = false.
Proof.
  intros [Hzero | Hlate].
  - rewrite Hzero. reflexivity.
  - apply andb_false_iff. right. apply Z.ltb_ge. exact Hlate.
Qed.

(** The outcome of a poll inside the window that follows a command. *)
Lemma async_update_skipped (now : Z) (api : ElectraAPI) (self : ElectraClimate) :
  _last_state_update self <> 0 ->
  now < _last_state_update self + API_DELAY ->
  async_update now api self
  = (Return tt, self, [Log DEBUG "Skipping state update, keeping old values"]).
Proof.
  intros Hstamp Hnow. unfold async_update. run_poll.
  rewrite (truthy_nonzero _ Hstamp).
  apply Z.ltb_lt in Hnow. rewrite Hnow. reflexivity.
Qed.

(** However many polls fall inside the window, each returns and the entity
    stays as the command left it. *)
Lemma polls_inside_window_change_nothing (ticks : list (Z * ElectraAPI))
    (self : ElectraClimate) :
  _last_state_update self <> 0 ->
  Forall (fun tick => tick.1 < _last_state_update self + API_DELAY) ticks ->
  poll_cycles ticks self = (replicate (length ticks) (Return tt), self).
Proof.
  intros Hstamp. induction ticks as [|[now api] ticks IH]; intros Hticks;
    [reflexivity|].
  apply Forall_cons in Hticks as [Hnow Hrest].
  cbn [poll_cycles].
  rewrite (async_update_skipped now api self Hstamp Hnow).
  rewrite (IH Hrest). reflexivity.
Qed.

(** The outcome of a poll whose telemetry call fails. *)
Lemma async_update_transport_error (now : Z) (api : ElectraAPI)
    (self : ElectraClimate) (exp : string) (device' : ElectraAirConditioner) :
  past_skip_window now self ->
  _skip_update self = false ->
  api_get_last_telemtry api (_electra_ac_device self)
  = (Raise (ElectraApiError exp), device') ->
  async_update now api self
  = ((if _consecutive_failures self + 1 >=? CONSECUTIVE_FAILURE_THRESHOLD then
        Raise (HomeAssistantError
                 ("Failed to get " +:+ name device' +:+ " state: " +:+ exp
                  +:+ " for the " +:+ pretty (_consecutive_failures self + 1)
                  +:+ " time"))
      else Return tt),
     set_consecutive_failures (_consecutive_failures self + 1)
       (set_electra_ac_device device' (set_last_state_update 0 self)),
     [GetLastTelemtry (_electra_ac_device self);
      Log WARNING
        "Failed to get %s state: %s (try #%i since last success), keeping old state"]).
Proof.
  intros Hwin Hskip Hapi.
  unfold async_update. run_poll.
  rewrite (past_skip_window_test _ _ Hwin).
  run_poll. rewrite Hskip. unfold get_last_telemtry. run_poll.
  rewrite Hapi. run_poll.
  destruct (_ >=? _); reflexivity.
Qed.

Lemma poll_cycles_length (ticks : list (Z * ElectraAPI)) (self : ElectraClimate) :
  length (poll_cycles ticks self).1 = length ticks.
Proof.
  revert self. induction ticks as [|[now api] ticks IH]; intros self; [reflexivity|].
  cbn [poll_cycles]. destruct (async_update now api self) as [[r self'] t].
  specialize (IH self'). destruct (poll_cycles ticks self') as [rs self''].
  cbn in *. congruence.
Qed.


Lemma _update_device_attrs_frame (self self' : ElectraClimate)
    (r : result unit) (t : list event) :
  _update_device_attrs self = (r, self', t) ->
  _electra_ac_device self' = _electra_ac_device self
  /\ _consecutive_failures self' = _consecutive_failures self
  /\ _last_state_update self' = _last_state_update self
  /\ _attr_available self' = _attr_available self
  /\ t = []
  /\ (r = Return tt \/ r = Raise KeyError).
Proof.
  unfold _update_device_attrs. run_attrs.
  destruct (FAN_ELECTRA_TO_HASS !! _); step;
    [| intros [= <- <- <-]; auto 10].
  destruct (is_on _); step;
    [destruct (HVAC_MODE_ELECTRA_TO_HASS !! _); step;
       [| intros [= <- <- <-]; auto 10] |];
    (destruct (String.eqb _ _); step;
       [| try (destruct (HVAC_ACTION_ELECTRA_TO_HASS !! _); step;
               [| intros [= <- <- <-]; auto 10])]);
    destruct (is_horizontal_swing _), (is_vertical_swing _); step;
    intros [= <- <- <-]; auto 10.
Qed.

Lemma _update_device_attrs_returns (self self' : ElectraClimate) (t : list event) :
  _update_device_attrs self = (Return tt, self', t) ->
  let device := _electra_ac_device self in
  _attr_fan_mode self' = FAN_ELECTRA_TO_HASS !! get_fan_speed device
  /\ _attr_current_temperature self' = Some (get_sensor_temperature device)
  /\ _attr_target_temperature self' = Some (get_temperature device)
  /\ _attr_hvac_mode self'
     = (if is_on device then HVAC_MODE_ELECTRA_TO_HASS !! get_mode device
        else Some HVACMode.OFF)
  /\ _attr_hvac_action self'
     = (if String.eqb (get_mode device) MODE_AUTO then None
        else if is_on device then HVAC_ACTION_ELECTRA_TO_HASS !! get_mode device
        else Some HVACAction.OFF)
  /\ _attr_swing_mode self'
     = Some (if is_horizontal_swing device && is_vertical_swing device
             then SWING_BOTH
             else if is_horizontal_swing device then SWING_HORIZONTAL
             else if is_vertical_swing device then SWING_VERTICAL
             else SWING_OFF)
  /\ _attr_preset_mode self'
     = Some (if get_shabat_mode device then PRESET_SHABAT else PRESET_NONE).
Proof.
  unfold _update_device_attrs. run_attrs.
  destruct (FAN_ELECTRA_TO_HASS !! _); step; [| discriminate].
  destruct (is_on _); step;
    [destruct (HVAC_MODE_ELECTRA_TO_HASS !! _); step; [| discriminate] |];
    (destruct (String.eqb _ _); step;
       [| try (destruct (HVAC_ACTION_ELECTRA_TO_HASS !! _); step;
               [| discriminate])]);
    destruct (is_horizontal_swing _), (is_vertical_swing _); step;
    intros [= <- <-]; step; auto 10.
Qed.

(** [_update_device_attrs] returns exactly when every vendor value it
    looks up is a key of its table. *)
Lemma _update_device_attrs_returns_iff (self : ElectraClimate) :
  let device := _electra_ac_device self in
  (_update_device_attrs self).1.1 = Return tt
  <-> is_Some (FAN_ELECTRA_TO_HASS !! get_fan_speed device)
      /\ (is_on device = true ->
          is_Some (HVAC_MODE_ELECTRA_TO_HASS !! get_mode device)
          /\ (String.eqb (get_mode device) MODE_AUTO = false ->
              is_Some (HVAC_ACTION_ELECTRA_TO_HASS !! get_mode device))).
Proof.
  unfold _update_device_attrs. run_attrs.
  destruct (FAN_ELECTRA_TO_HASS !! _) as [fan|]; step;
    [| split; [discriminate | intros [[? [=]] _]]].
  destruct (is_on _); step;
    [destruct (HVAC_MODE_ELECTRA_TO_HASS !! _) as [mode|]; step;
       [| split; [discriminate | intros [_ Hon]; destruct (Hon eq_refl) as [[? [=]] _]]] |];
    (destruct (String.eqb _ _); step;
       [| try (destruct (HVAC_ACTION_ELECTRA_TO_HASS !! _) as [action|]; step;
               [| split; [discriminate
                         | intros [_ Hon];
                           destruct (Hon eq_refl) as [_ Hact];
                           destruct (Hact eq_refl) as [? [=]]]])]);
    destruct (is_horizontal_swing _), (is_vertical_swing _); step;
    (split; [intros _ | reflexivity]);
    (split; [eauto | intros; try discriminate; split; intros; try discriminate; eauto]).
Qed.

(** The outcome of a poll that fetches telemetry showing the device in
    contact. *)
Lemma async_update_fetched (now : Z) (api : ElectraAPI) (self : ElectraClimate)
    (device' : ElectraAirConditioner) :
  past_skip_window now self ->
  _skip_update self = false ->
  api_get_last_telemtry api (_electra_ac_device self) = (Return tt, device') ->
  is_disconnected device' UNAVAILABLE_THRESH_SEC = false ->
  async_update now api self
  = (let s1 := set_electra_ac_device device' (set_last_state_update 0 self) in
     let s2 := if _available self then s1
               else set_attr_available true (set_available true s1) in
     let '(r, s, t) := _update_device_attrs (set_consecutive_failures 0 s2) in
     (r, s,
      GetLastTelemtry (_electra_ac_device self)
      :: (if _available self then []
          else [Log WARNING "%s (%s) is now available"])
      ++ Log DEBUG "%s (%s) state updated: %s" :: t)).
Proof.
  intros Hwin Hskip Hapi Hconn.
  unfold async_update. run_poll.
  rewrite (past_skip_window_test _ _ Hwin).
  run_poll. rewrite Hskip. unfold get_last_telemtry. run_poll. rewrite Hapi.
  run_poll. rewrite Hconn. run_poll.
  destruct (_available self); run_poll;
    destruct (_update_device_attrs _) as [[r s] t]; reflexivity.
Qed.

(** The outcome of a poll that fetches telemetry showing the device out
    of contact. *)
Lemma async_update_disconnected (now : Z) (api : ElectraAPI) (self : ElectraClimate)
    (device' : ElectraAirConditioner) :
  past_skip_window now self ->
  _skip_update self = false ->
  api_get_last_telemtry api (_electra_ac_device self) = (Return tt, device') ->
  is_disconnected device' UNAVAILABLE_THRESH_SEC = true ->
  async_update now api self
  = (let s1 := set_electra_ac_device device' (set_last_state_update 0 self) in
     (Return tt,
      set_attr_available false
        (if _available self then set_available false s1 else s1),
      GetLastTelemtry (_electra_ac_device self)
      :: (if _available self then
            [Log WARNING
               "Electra AC %s (%s) is not available, check its status in the Electra Smart mobile app"]
          else []))).
Proof.
  intros Hwin Hskip Hapi Hconn.
  unfold async_update. run_poll.
  rewrite (past_skip_window_test _ _ Hwin).
  run_poll. rewrite Hskip. unfold get_last_telemtry. run_poll. rewrite Hapi.
  run_poll. rewrite Hconn. run_poll.
  destruct (_available self); reflexivity.
Qed.
(** A command whose acknowledgment arrived and which returned has recorded
    the clock reading. *)
Lemma command_records_clock (now : Z) (api : ElectraAPI)
    (self self' : ElectraClimate) (resp : ApiResponse)
    (device' : ElectraAirConditioner) (t : list event) :
  api_set_state api (_electra_ac_device self) = (Return resp, device') ->
  _async_update_electra_ac_state now api self = (Return tt, self', t) ->
  _last_state_update self' = now.
Proof.
  intros Hapi. unfold _async_update_electra_ac_state, set_state. run_poll.
  rewrite Hapi. run_poll.
  destruct (negb _); run_poll; [discriminate|].
  destruct (_update_device_attrs _) as [[[] s] t1] eqn:Hattrs; run_poll.
  - intros [= <- _]. reflexivity.
  - discriminate.
Qed.

(** A run of failing polls from any count.  Only the first poll has to be
    past the skip window: a failing poll clears the command timestamp, so
    the polls after it are.  The counter ends one higher per poll, and the
    outcome of each poll follows the count that includes it. *)
Lemma poll_cycles_failing_run (ticks : list (Z * ElectraAPI)) :
  forall self : ElectraClimate,
    _skip_update self = false ->
    (forall tick, head ticks = Some tick -> past_skip_window tick.1 self) ->
    Forall (fun tick => transport_failure tick.2) ticks ->
    _consecutive_failures (poll_cycles ticks self).2
    = _consecutive_failures self + Z.of_nat (length ticks)
    /\ forall (k : nat) (r : result unit),
         (poll_cycles ticks self).1 !! k = Some r ->
         (_consecutive_failures self + Z.of_nat (S k)
          < CONSECUTIVE_FAILURE_THRESHOLD ->
          r = Return tt)
         /\ (CONSECUTIVE_FAILURE_THRESHOLD
             <= _consecutive_failures self + Z.of_nat (S k) ->
             exists msg, r = Raise (HomeAssistantError msg)).
Proof.
  induction ticks as [|[now api] ticks IH]; intros self Hskip Hfirst Hfail.
  - split; [cbn; lia | intros k r Hk; discriminate Hk].
  - apply Forall_cons in Hfail as [Hnow Hrest].
    destruct (Hnow (_electra_ac_device self)) as (exp & device' & Hapi).
    assert (Hwin : past_skip_window now self)
      by (apply (Hfirst (now, api)); reflexivity).
    cbn [poll_cycles].
    rewrite (async_update_transport_error now api self exp device' Hwin Hskip Hapi).
    set (self' := set_consecutive_failures _ _).
    destruct (IH self' Hskip) as [Hcount Hrun];
      [intros tick _; left; reflexivity | exact Hrest |].
    destruct (poll_cycles ticks self') as [rs self'']. cbn [fst snd] in *.
    split.
    + rewrite Hcount. subst self'. cbn. lia.
    + intros [|k] r Hk; cbn in Hk.
      * injection Hk as <-.
        replace (_consecutive_failures self + Z.of_nat 1)
          with (_consecutive_failures self + 1) by lia.
        destruct (Z.geb_spec (_consecutive_failures self + 1)
                    CONSECUTIVE_FAILURE_THRESHOLD) as [Hge | Hlt].
        -- split; [lia | eauto].
        -- split; [reflexivity | lia].
      * specialize (Hrun k r Hk). subst self'. cbn in Hrun.
        replace (_consecutive_failures self + Z.of_nat (S (S k)))
          with (_consecutive_failures self + 1 + Z.of_nat (S k)) by lia.
        exact Hrun.
Qed.

End ClimateFacts.

(** ** Polling and command dispatch *)

Section ClimateClaims.
Context {hass : Hass} {lib : ElectraLib} {const : Const}.

(** C1, as the code has it.  First, one failing poll from any count: a
    poll that reaches the API (it is not the first poll of the entity and
    not inside the skip window of a command) and whose telemetry call
    raises [ElectraApiError] leaves the consecutive-failure counter one
    higher, and it raises [HomeAssistantError] exactly when the count that
    includes this failure has reached [CONSECUTIVE_FAILURE_THRESHOLD];
    otherwise it returns normally.  Second, a run of failing polls from
    any count, of which only the first has to be past the skip window (the
    command timestamp may have expired, or the poll before may have found
    the device disconnected): each poll yields an outcome, the counter ends
    one higher per poll, and poll number [k + 1] of the run raises exactly
    when the starting count plus [k + 1] has reached the threshold.  With
    no failure on record, the failure that brings the count to the
    threshold is itself the first to raise. *)
Theorem hard_error_at_threshold :
  (forall (now : Z) (api : ElectraAPI) (self : ElectraClimate) (exp : string)
          (device' : ElectraAirConditioner),
     past_skip_window now self ->
     _skip_update self = false ->
     api_get_last_telemtry api (_electra_ac_device self)
     = (Raise (ElectraApiError exp), device') ->
     let run := async_update now api self in
     _consecutive_failures run.1.2 = _consecutive_failures self + 1
     /\ ((exists msg, run.1.1 = Raise (HomeAssistantError msg))
         <-> CONSECUTIVE_FAILURE_THRESHOLD <= _consecutive_failures self + 1)
     /\ (run.1.1 = Return tt
         <-> _consecutive_failures self + 1 < CONSECUTIVE_FAILURE_THRESHOLD))
  /\ (forall (ticks : list (Z * ElectraAPI)) (self : ElectraClimate),
        _skip_update self = false ->
        (forall tick, head ticks = Some tick -> past_skip_window tick.1 self) ->
        Forall (fun tick => transport_failure tick.2) ticks ->
        length (poll_cycles ticks self).1 = length ticks
        /\ _consecutive_failures (poll_cycles ticks self).2
           = _consecutive_failures self + Z.of_nat (length ticks)
        /\ forall (k : nat) (r : result unit),
             (poll_cycles ticks self).1 !! k = Some r ->
             ((exists msg, r = Raise (HomeAssistantError msg))
              <-> CONSECUTIVE_FAILURE_THRESHOLD
                  <= _consecutive_failures self + Z.of_nat (S k))
             /\ (r = Return tt
                 <-> _consecutive_failures self + Z.of_nat (S k)
                     < CONSECUTIVE_FAILURE_THRESHOLD)).
Proof.
  split.
  - intros now api self exp device' Hwin Hskip Hapi run. subst run.
    rewrite (async_update_transport_error now api self exp device' Hwin Hskip Hapi).
    cbn [fst snd]. split; [reflexivity|].
    destruct (Z.geb_spec (_consecutive_failures self + 1)
                CONSECUTIVE_FAILURE_THRESHOLD) as [Hge | Hlt].
    + split; split; intros H; first [lia | discriminate H | eauto].
    + split; split; intros H;
        first [lia | reflexivity | destruct H as [msg Hmsg]; discriminate Hmsg].
  - intros ticks self Hskip Hfirst Hfail.
    destruct (poll_cycles_failing_run ticks self Hskip Hfirst Hfail)
      as [Hcount Hrun].
    split; [apply poll_cycles_length|]. split; [exact Hcount|].
    intros k r Hk. destruct (Hrun k r Hk) as [Hbelow Habove].
    destruct (Z.lt_ge_cases (_consecutive_failures self + Z.of_nat (S k))
                CONSECUTIVE_FAILURE_THRESHOLD) as [Hlt | Hge].
    + rewrite (Hbelow Hlt).
      split; split; intros H;
        first [lia | reflexivity | destruct H as [msg Hmsg]; discriminate Hmsg].
    + destruct (Habove Hge) as [msg ->].
      split; split; intros H; first [lia | discriminate H | eauto].
Qed.

(** C3.  A poll made while a command timestamp is pending and fewer than
    [API_DELAY] seconds after it is skipped: it returns at once, the only
    action is the debug log record (no telemetry call), and the entity is
    left exactly as it was, so every cached display attribute, the
    availability and the failure counter keep their values. *)
Theorem async_update_skips_inside_window (now : Z) (api : ElectraAPI)
    (self : ElectraClimate) :
  _last_state_update self <> 0 ->
  now < _last_state_update self + API_DELAY ->
  async_update now api self
  = (Return tt, self, [Log DEBUG "Skipping state update, keeping old values"])
  /\ (forall device, GetLastTelemtry device ∉ (async_update now api self).2)
  /\ display_attributes (async_update now api self).1.2 = display_attributes self
  /\ _consecutive_failures (async_update now api self).1.2
     = _consecutive_failures self.
Proof.
  intros Hstamp Hnow.
  rewrite (async_update_skipped now api self Hstamp Hnow). cbn [fst snd].
  repeat split.
  intros device Hfetch. apply list_elem_of_singleton in Hfetch. discriminate Hfetch.
Qed.

(** C4, as the code has it.  For a poll past the skip window that calls
    the telemetry API: when the call raises a transport error the failure
    counter grows by exactly one and every display attribute keeps its
    value; when the call returns and the device is in contact, the
    counter is reset to zero, the poll returns exactly when each vendor
    value it has to translate is a key of its table, and then the display
    attributes are the images of the fetched device state under the
    tables. *)
Theorem async_update_counts_and_recopies (now : Z) (api : ElectraAPI)
    (self self' : ElectraClimate) (r out : result unit)
    (device' : ElectraAirConditioner) (t : list event) :
  past_skip_window now self ->
  _skip_update self = false ->
  api_get_last_telemtry api (_electra_ac_device self) = (r, device') ->
  async_update now api self = (out, self', t) ->
  (forall exp, r = Raise (ElectraApiError exp) ->
     _consecutive_failures self' = _consecutive_failures self + 1
     /\ display_attributes self' = display_attributes self)
  /\ (r = Return tt ->
      is_disconnected device' UNAVAILABLE_THRESH_SEC = false ->
      _consecutive_failures self' = 0
      /\ (out = Return tt
          <-> is_Some (FAN_ELECTRA_TO_HASS !! get_fan_speed device')
              /\ (is_on device' = true ->
                  is_Some (HVAC_MODE_ELECTRA_TO_HASS !! get_mode device')
                  /\ (String.eqb (get_mode device') MODE_AUTO = false ->
                      is_Some (HVAC_ACTION_ELECTRA_TO_HASS !! get_mode device'))))
      /\ (out = Return tt ->
          _attr_fan_mode self' = FAN_ELECTRA_TO_HASS !! get_fan_speed device'
          /\ _attr_current_temperature self' = Some (get_sensor_temperature device')
          /\ _attr_target_temperature self' = Some (get_temperature device')
          /\ _attr_hvac_mode self'
             = (if is_on device' then HVAC_MODE_ELECTRA_TO_HASS !! get_mode device'
                else Some HVACMode.OFF)
          /\ _attr_hvac_action self'
             = (if String.eqb (get_mode device') MODE_AUTO then None
                else if is_on device'
                     then HVAC_ACTION_ELECTRA_TO_HASS !! get_mode device'
                     else Some HVACAction.OFF)
          /\ _attr_swing_mode self'
             = Some (if is_horizontal_swing device' && is_vertical_swing device'
                     then SWING_BOTH
                     else if is_horizontal_swing device' then SWING_HORIZONTAL
                     else if is_vertical_swing device' then SWING_VERTICAL
                     else SWING_OFF)
          /\ _attr_preset_mode self'
             = Some (if get_shabat_mode device' then PRESET_SHABAT
                     else PRESET_NONE)
          /\ _attr_available self'
             = (if _available self then _attr_available self else true))).
Proof.
  intros Hwin Hskip Hapi Hrun. split.
  - intros exp ->.
    rewrite (async_update_transport_error now api self exp device' Hwin Hskip Hapi)
      in Hrun.
    injection Hrun as _ <- _. split; reflexivity.
  - intros -> Hconn.
    rewrite (async_update_fetched now api self device' Hwin Hskip Hapi Hconn)
      in Hrun.
    cbv zeta in Hrun.
    set (s3 := set_consecutive_failures 0 _) in Hrun.
    assert (Hdev : _electra_ac_device s3 = device')
      by (subst s3; destruct (_available self); reflexivity).
    assert (Hav : _attr_available s3
                  = if _available self then _attr_available self else true)
      by (subst s3; destruct (_available self); reflexivity).
    pose proof (_update_device_attrs_returns_iff s3) as Hiff.
    destruct (_update_device_attrs s3) as [[r2 s4] t4] eqn:Hattrs.
    injection Hrun as <- <- _.
    destruct (_update_device_attrs_frame _ _ _ _ Hattrs)
      as (_ & Hcount & _ & Havail & _ & _).
    cbn [fst snd] in Hiff. rewrite Hdev in Hiff.
    split; [rewrite Hcount; reflexivity|]. split; [exact Hiff|].
    intros ->. pose proof (_update_device_attrs_returns _ _ _ Hattrs) as Hvals.
    cbv zeta in Hvals. rewrite Hdev in Hvals.
    destruct Hvals as (? & ? & ? & ? & ? & ? & ?).
    repeat (split; [assumption|]). rewrite Havail. exact Hav.
Qed.

(** C10.  A poll whose telemetry call returns but whose device is out of
    contact returns normally with the entity marked unavailable; the
    failure counter is left as it was (not reset) and no other display
    attribute is refreshed. *)
Theorem async_update_disconnected_returns_early (now : Z) (api : ElectraAPI)
    (self : ElectraClimate) (device' : ElectraAirConditioner) :
  past_skip_window now self ->
  _skip_update self = false ->
  api_get_last_telemtry api (_electra_ac_device self) = (Return tt, device') ->
  is_disconnected device' UNAVAILABLE_THRESH_SEC = true ->
  exists (self' : ElectraClimate) (t : list event),
    async_update now api self = (Return tt, self', t)
    /\ _consecutive_failures self' = _consecutive_failures self
    /\ _attr_available self' = false
    /\ _attr_fan_mode self' = _attr_fan_mode self
    /\ _attr_current_temperature self' = _attr_current_temperature self
    /\ _attr_target_temperature self' = _attr_target_temperature self
    /\ _attr_hvac_mode self' = _attr_hvac_mode self
    /\ _attr_hvac_action self' = _attr_hvac_action self
    /\ _attr_swing_mode self' = _attr_swing_mode self
    /\ _attr_preset_mode self' = _attr_preset_mode self.
Proof.
  intros Hwin Hskip Hapi Hconn.
  rewrite (async_update_disconnected now api self device' Hwin Hskip Hapi Hconn).
  cbv zeta. eexists _, _. split; [reflexivity|].
  destruct (_available self); cbn; auto 10.
Qed.

(** C7.  When [set_state] returns an acknowledgment that is not a full
    success, the command handler writes the entity state to the host and
    then raises [HomeAssistantError]; the state written carries the
    display attributes as they were before the command (they are not
    derived again), and no command timestamp is recorded. *)
Theorem negative_ack_writes_then_raises (now : Z) (api : ElectraAPI)
    (self : ElectraClimate) (resp : ApiResponse)
    (device' : ElectraAirConditioner) :
  api_set_state api (_electra_ac_device self) = (Return resp, device') ->
  ~ (resp_status resp = STATUS_SUCCESS /\ resp_res resp = STATUS_SUCCESS) ->
  let self' := set_electra_ac_device device' self in
  _async_update_electra_ac_state now api self
  = (Raise (HomeAssistantError
              ("Failed to update " +:+ _attr_name self +:+ ", error: "
               +:+ str_resp resp)),
     self',
     [SetState (_electra_ac_device self); WriteHaState self'])
  /\ display_attributes self' = display_attributes self
  /\ _last_state_update self' = _last_state_update self.
Proof.
  intros Hapi Hnack self'. split; [| split; reflexivity].
  unfold _async_update_electra_ac_state, set_state. run_poll.
  rewrite Hapi. run_poll.
  assert (Hboth : (resp_status resp =? STATUS_SUCCESS)
                  && (resp_res resp =? STATUS_SUCCESS) = false).
  { apply not_true_is_false. intros Hb. apply Hnack.
    apply andb_true_iff in Hb as [H1 H2].
    split; apply Z.eqb_eq; assumption. }
  rewrite Hboth. reflexivity.
Qed.

(** C9.  After [_update_device_attrs] has returned, the swing mode is
    "both" when both axes swing, "off" when neither does, and the single
    swinging axis otherwise. *)
Theorem swing_mode_derivation (self self' : ElectraClimate) (t : list event) :
  _update_device_attrs self = (Return tt, self', t) ->
  let device := _electra_ac_device self in
  (is_horizontal_swing device = true -> is_vertical_swing device = true ->
   _attr_swing_mode self' = Some SWING_BOTH)
  /\ (is_horizontal_swing device = false -> is_vertical_swing device = false ->
      _attr_swing_mode self' = Some SWING_OFF)
  /\ (is_horizontal_swing device = true -> is_vertical_swing device = false ->
      _attr_swing_mode self' = Some SWING_HORIZONTAL)
  /\ (is_horizontal_swing device = false -> is_vertical_swing device = true ->
      _attr_swing_mode self' = Some SWING_VERTICAL).
Proof.
  intros Hrun device.
  destruct (_update_device_attrs_returns _ _ _ Hrun)
    as (_ & _ & _ & _ & _ & Hswing & _).
  fold device in Hswing. rewrite Hswing.
  repeat split; intros -> ->; reflexivity.
Qed.

(** C2, as the code has it.  An API error whose text contains the lockout
    marker and does not contain "client error" ends in
    [ConfigEntryAuthFailed], both when [set_state] raises it inside
    [_async_update_electra_ac_state] and when [get_devices] raises it. *)
Theorem lockout_requires_reauthentication (api : ElectraAPI) (exp : string) :
  str_in INTRUDER_LOCKOUT exp = true ->
  str_in "client error" exp = false ->
  (forall (now : Z) (self : ElectraClimate) (device' : ElectraAirConditioner),
     api_set_state api (_electra_ac_device self)
     = (Raise (ElectraApiError exp), device') ->
     (_async_update_electra_ac_state now api self).1.1
     = Raise (ConfigEntryAuthFailed
                ("Error communicating with API: " +:+ exp
                 +:+ ", You must re-authenticate by adding the integration again")))
  /\ (api_get_devices api = Raise (ElectraApiError exp) ->
      (get_devices api tt).1.1
      = Raise (ConfigEntryAuthFailed
                 ("Error communicating with API: " +:+ exp
                  +:+ ", You must re-authenticate by adding the integration again"))).
Proof.
  intros Hlock Hclient.
  pose proof (str_in_app_r INTRUDER_LOCKOUT "Error communicating with API: " exp Hlock)
    as Hlock'.
  pose proof (client_error_in_err_message exp) as Hclient'.
  rewrite Hclient in Hclient'.
  split.
  - intros now self device' Hapi.
    unfold _async_update_electra_ac_state, set_state. run_poll.
    rewrite Hapi. run_poll. rewrite Hclient', Hlock'. reflexivity.
  - intros Hapi. unfold get_devices. run_poll. rewrite Hapi.
    rewrite Hclient', Hlock'. reflexivity.
Qed.

End ClimateClaims.

(** ** Translation tables *)

(** Lookup of a literal key in a literal table whose keys are distinct. *)
Ltac look :=
  repeat first [ rewrite lookup_insert_eq
               | rewrite lookup_insert_ne; [| congruence] ];
  try reflexivity; eauto.

(** Pairwise distinctness out of a [NoDup] hypothesis on a literal list. *)
Ltac distinct H :=
  repeat (apply NoDup_cons in H as [?Hnotin H]);
  repeat match goal with
         | Hn : _ ∉ _ :: _ |- _ => apply not_elem_of_cons in Hn as [? Hn]
         end.

Ltac run_flow :=
  unfold bind, get, assign, emit, ret, raise, lift, try_except_else, getitem;
  cbn -[dict].

Section Tables.
Context {hass : Hass} {lib : ElectraLib} {const : Const}.

(** C5.  Over their supported values the fan and HVAC-mode tables are
    inverse to each other: a host fan mode of [_attr_fan_modes] maps to a
    vendor speed that maps back to it, and an entry of the vendor-to-host
    table maps back to its key; likewise for every HVAC mode the entity
    supports other than [OFF] (which is a power state, not a key of the
    tables) and for every vendor mode.  The constants of each table are
    taken to be pairwise distinct. *)
Theorem translation_tables_round_trip :
  NoDup [FAN_SPEED_AUTO; FAN_SPEED_LOW; FAN_SPEED_MED; FAN_SPEED_HIGH] ->
  NoDup [FAN_AUTO; FAN_LOW; FAN_MEDIUM; FAN_HIGH] ->
  NoDup [MODE_COOL; MODE_HEAT; MODE_FAN; MODE_DRY; MODE_AUTO] ->
  (forall f : string, f ∈ _attr_fan_modes ->
     exists v, FAN_HASS_TO_ELECTRA !! f = Some v
               /\ FAN_ELECTRA_TO_HASS !! v = Some f)
  /\ (forall v f : string, FAN_ELECTRA_TO_HASS !! v = Some f ->
        FAN_HASS_TO_ELECTRA !! f = Some v)
  /\ (forall v : string,
        v ∈ [FAN_SPEED_AUTO; FAN_SPEED_LOW; FAN_SPEED_MED; FAN_SPEED_HIGH] ->
        is_Some (FAN_ELECTRA_TO_HASS !! v))
  /\ (forall m : HVACMode.t, m ∈ _attr_hvac_modes -> m <> HVACMode.OFF ->
        exists v, HVAC_MODE_HASS_TO_ELECTRA !! m = Some v
                  /\ HVAC_MODE_ELECTRA_TO_HASS !! v = Some m)
  /\ (forall (v : string) (m : HVACMode.t),
        HVAC_MODE_ELECTRA_TO_HASS !! v = Some m ->
        HVAC_MODE_HASS_TO_ELECTRA !! m = Some v)
  /\ (forall v : string,
        v ∈ [MODE_COOL; MODE_HEAT; MODE_FAN; MODE_DRY; MODE_AUTO] ->
        is_Some (HVAC_MODE_ELECTRA_TO_HASS !! v)).
Proof.
  intros Hvendor Hhost Hmode.
  distinct Hvendor. distinct Hhost. distinct Hmode.
  unfold FAN_HASS_TO_ELECTRA, FAN_ELECTRA_TO_HASS, HVAC_MODE_HASS_TO_ELECTRA,
    HVAC_MODE_ELECTRA_TO_HASS, _attr_fan_modes, _attr_hvac_modes, dict.
  cbn [foldl fst snd].
  repeat split.
  - intros f Hf. set_unfold in Hf.
    destruct Hf as [-> | [-> | [-> | [-> | []]]]]; eexists; (split; [look|]); look.
  - intros v f Hv.
    repeat (apply lookup_insert_Some in Hv as [[<- <-] | [? Hv]]; [look|]).
    rewrite lookup_empty in Hv. discriminate.
  - intros v Hv. set_unfold in Hv.
    destruct Hv as [-> | [-> | [-> | [-> | []]]]]; look.
  - intros m Hm Hoff. set_unfold in Hm.
    destruct Hm as [-> | [-> | [-> | [-> | [-> | [-> | []]]]]]]; try congruence;
      eexists; (split; [look|]); look.
  - intros v m Hv.
    repeat (apply lookup_insert_Some in Hv as [[<- <-] | [? Hv]]; [look|]).
    rewrite lookup_empty in Hv. discriminate.
  - intros v Hv. set_unfold in Hv.
    destruct Hv as [-> | [-> | [-> | [-> | [-> | []]]]]]; look.
Qed.
End Tables.

(** ** Setup wizard *)

Section ConfigFlowClaims.
Context {hass : Hass} {lib : ElectraLib} {const : Const}.


(** C8.  When the API validates the entered OTP for the stored phone
    number and generated IMEI with a success result, the wizard stores the
    token of the response and creates an entry titled with the phone
    number, whose data is the dict of that token, the IMEI and the phone
    number (three distinct keys, each holding its value, when the key
    names differ). *)
Theorem otp_success_creates_entry (api : ElectraAPI)
    (otp phone_number imei : string) (user_input : gmap string string)
    (self : ConfigFlow) (resp : ApiResponse) :
  _phone_number self = Some phone_number ->
  _imei self = Some imei ->
  user_input !! CONF_OTP = Some otp ->
  api_validate_one_time_password api (Some otp) (Some imei) (Some phone_number)
  = Return resp ->
  resp_res resp = STATUS_SUCCESS ->
  let data : gmap string (option string) :=
    dict [ (CONF_TOKEN, Some (resp_token resp));
           (CONF_IMEI, Some imei);
           (CONF_PHONE_NUMBER, Some phone_number) ] in
  _validate_one_time_password api user_input self
  = (Return (async_create_entry (Some phone_number) data),
     set_token (Some (resp_token resp)) (set_otp (Some otp) self),
     [ValidateOneTimePassword (Some otp) (Some imei) (Some phone_number)])
  /\ (NoDup [CONF_TOKEN; CONF_IMEI; CONF_PHONE_NUMBER] ->
      data !! CONF_TOKEN = Some (Some (resp_token resp))
      /\ data !! CONF_IMEI = Some (Some imei)
      /\ data !! CONF_PHONE_NUMBER = Some (Some phone_number)
      /\ dom data = {[ CONF_TOKEN; CONF_IMEI; CONF_PHONE_NUMBER ]}).
Proof.
  intros Hphone Himei Hin Hapi Hres data. split.
  - apply Z.eqb_eq in Hres.
    unfold _validate_one_time_password, validate_one_time_password.
    run_flow. rewrite Hin. run_flow. rewrite Himei, Hphone, Hapi. run_flow.
    rewrite Hres. run_flow. rewrite Himei, Hphone. reflexivity.
  - intros Hkeys. distinct Hkeys. subst data. unfold dict. cbn [foldl fst snd].
    repeat split; [look | look | look |].
    rewrite !dom_insert_L, dom_empty_L. apply set_eq. intros key.
    rewrite !elem_of_union, !elem_of_singleton, elem_of_empty. tauto.
Qed.

(** After the phone step has reached the API, the session holds the phone
    number entered and the identifier generated for it. *)
Lemma phone_step_stores_identity (host : FlowHost) (api : ElectraAPI)
    (imei phone_number : string) (user_input : gmap string string)
    (self : ConfigFlow) :
  user_input !! CONF_PHONE_NUMBER = Some phone_number ->
  let self' := (_validate_phone_number host api imei user_input self).1.2 in
  _phone_number self' = Some phone_number /\ _imei self' = Some imei.
Proof.
  intros Hin.
  unfold _validate_phone_number, async_set_unique_id,
    _abort_if_unique_id_configured, generate_new_token, _show_setup_form,
    async_step_one_time_password, _show_otp_form.
  run_flow. rewrite Hin. run_flow.
  destruct (unique_id self) as [id|]; run_flow.
  - destruct (api_generate_new_token _ _ _) as [resp|[]]; run_flow;
      try (split; reflexivity).
    destruct (_ =? _); [destruct (_ =? _)|]; run_flow; split; reflexivity.
  - destruct (host_set_unique_id _ _) as [[]|e]; run_flow;
      [| split; reflexivity].
    destruct (host_abort_if_unique_id_configured _ _) as [[]|e]; run_flow;
      [| split; reflexivity].
    destruct (api_generate_new_token _ _ _) as [resp|[]]; run_flow;
      try (split; reflexivity).
    destruct (_ =? _); [destruct (_ =? _)|]; run_flow; split; reflexivity.
Qed.
End ConfigFlowClaims.

(** ** Further properties of polling, commands and the wizard *)

Section PollingExtras.
Context {hass : Hass} {lib : ElectraLib} {const : Const}.

(** The outcome of a poll whose telemetry call raises something other
    than [ElectraApiError]. *)
Lemma async_update_other_exception (now : Z) (api : ElectraAPI)
    (self : ElectraClimate) (e : exn) (device' : ElectraAirConditioner) :
  past_skip_window now self ->
  _skip_update self = false ->
  api_get_last_telemtry api (_electra_ac_device self) = (Raise e, device') ->
  (forall msg, e <> ElectraApiError msg) ->
  async_update now api self
  = (Raise e, set_electra_ac_device device' (set_last_state_update 0 self),
     [GetLastTelemtry (_electra_ac_device self)]).
Proof.
  intros Hwin Hskip Hapi Hother.
  unfold async_update. run_poll.
  rewrite (past_skip_window_test _ _ Hwin).
  run_poll. rewrite Hskip. unfold get_last_telemtry. run_poll.
  rewrite Hapi. run_poll.
  destruct e; try reflexivity. destruct (Hother msg eq_refl).
Qed.

(** The outcome of the first poll of an entity: no telemetry call. *)
Lemma async_update_first (now : Z) (api : ElectraAPI) (self : ElectraClimate) :
  past_skip_window now self ->
  _skip_update self = true ->
  async_update now api self
  = (let s1 := set_skip_update false (set_last_state_update 0 self) in
     if is_disconnected (_electra_ac_device self) UNAVAILABLE_THRESH_SEC then
       (Return tt,
        set_attr_available false
          (if _available self then set_available false s1 else s1),
        if _available self then
          [Log WARNING
             "Electra AC %s (%s) is not available, check its status in the Electra Smart mobile app"]
        else [])
     else
       let s2 := if _available self then s1
                 else set_attr_available true (set_available true s1) in
       let '(r, s, t) := _update_device_attrs (set_consecutive_failures 0 s2) in
       (r, s,
        (if _available self then []
         else [Log WARNING "%s (%s) is now available"])
        ++ Log DEBUG "%s (%s) state updated: %s" :: t)).
Proof.
  intros Hwin Hskip.
  unfold async_update. run_poll.
  rewrite (past_skip_window_test _ _ Hwin).
  run_poll. rewrite Hskip. run_poll.
  destruct (is_disconnected _ _); run_poll.
  - destruct (_available self); reflexivity.
  - destruct (_available self); run_poll;
      destruct (_update_device_attrs _) as [[r s] t]; reflexivity.
Qed.

(** Past the skip window and the first poll, a poll starts with the
    telemetry call. *)
Lemma async_update_calls_api (now : Z) (api : ElectraAPI) (self : ElectraClimate) :
  past_skip_window now self ->
  _skip_update self = false ->
  exists t,
    (async_update now api self).2 = GetLastTelemtry (_electra_ac_device self) :: t.
Proof.
  intros Hwin Hskip.
  destruct (api_get_last_telemtry api (_electra_ac_device self))
    as [[[]|e] device'] eqn:Hapi.
  - destruct (is_disconnected device' UNAVAILABLE_THRESH_SEC) eqn:Hconn.
    + rewrite (async_update_disconnected now api self device' Hwin Hskip Hapi Hconn).
      eexists. reflexivity.
    + rewrite (async_update_fetched now api self device' Hwin Hskip Hapi Hconn).
      cbv zeta. destruct (_update_device_attrs _) as [[r s] t].
      eexists. reflexivity.
  - destruct e as [exp| | | | |];
      try (rewrite (async_update_other_exception now api self _ device'
                      Hwin Hskip Hapi) by discriminate;
           eexists; reflexivity).
    rewrite (async_update_transport_error now api self exp device' Hwin Hskip Hapi).
    eexists. reflexivity.
Qed.

(** [_update_device_attrs] assigns display attributes only. *)
Lemma _update_device_attrs_flags (self self' : ElectraClimate)
    (r : result unit) (t : list event) :
  _update_device_attrs self = (r, self', t) ->
  _skip_update self' = _skip_update self
  /\ _attr_name self' = _attr_name self
  /\ _available self' = _available self.
Proof.
  unfold _update_device_attrs. run_attrs.
  destruct (FAN_ELECTRA_TO_HASS !! _); step;
    [| intros [= <- <- <-]; auto].
  destruct (is_on _); step;
    [destruct (HVAC_MODE_ELECTRA_TO_HASS !! _); step;
       [| intros [= <- <- <-]; auto] |];
    (destruct (String.eqb _ _); step;
       [| try (destruct (HVAC_ACTION_ELECTRA_TO_HASS !! _); step;
               [| intros [= <- <- <-]; auto])]);
    destruct (is_horizontal_swing _), (is_vertical_swing _); step;
    intros [= <- <- <-]; auto.
Qed.

(** What a poll leaves alone or settles: it is skipped and changes
    nothing, or it ends with no command timestamp pending and with the
    first-poll flag down; it never renames the entity nor turns the failure
    count negative. *)
Lemma async_update_frame (now : Z) (api : ElectraAPI) (self : ElectraClimate) :
  let self' := (async_update now api self).1.2 in
  ((_last_state_update self <> 0
    /\ now < _last_state_update self + API_DELAY /\ self' = self)
   \/ (_last_state_update self' = 0 /\ _skip_update self' = false))
  /\ _attr_name self' = _attr_name self
  /\ (0 <= _consecutive_failures self -> 0 <= _consecutive_failures self').
Proof.
  destruct (truthy (_last_state_update self)
            && (now <? _last_state_update self + API_DELAY)) eqn:Hwindow.
  - apply andb_true_iff in Hwindow as [Hstamp Hnow].
    assert (Hstamp' : _last_state_update self <> 0).
    { intros Hz. unfold truthy in Hstamp. rewrite Hz in Hstamp. discriminate. }
    apply Z.ltb_lt in Hnow.
    rewrite (async_update_skipped now api self Hstamp' Hnow). cbn.
    repeat split; auto.
  - assert (Hwin : past_skip_window now self).
    { apply andb_false_iff in Hwindow as [Hstamp | Hnow].
      - left. unfold truthy in Hstamp. apply negb_false_iff, Z.eqb_eq in Hstamp.
        exact Hstamp.
      - right. apply Z.ltb_ge in Hnow. exact Hnow. }
    destruct (_skip_update self) eqn:Hskip.
    + rewrite (async_update_first now api self Hwin Hskip). cbv zeta.
      destruct (is_disconnected _ _).
      * destruct (_available self); cbn; repeat split; auto.
      * destruct (_update_device_attrs _) as [[r s] t] eqn:Hattrs.
        destruct (_update_device_attrs_frame _ _ _ _ Hattrs)
          as (_ & Hcount & Hlast & _).
        destruct (_update_device_attrs_flags _ _ _ _ Hattrs)
          as (Hflag & Hname & _).
        cbn [fst snd]. rewrite Hcount, Hlast, Hflag, Hname.
        destruct (_available self); cbn; repeat split; auto; lia.
    + destruct (api_get_last_telemtry api (_electra_ac_device self))
        as [[[]|e] device'] eqn:Hapi.
      * destruct (is_disconnected device' UNAVAILABLE_THRESH_SEC) eqn:Hconn.
        -- rewrite (async_update_disconnected now api self device'
                      Hwin Hskip Hapi Hconn).
           cbv zeta. destruct (_available self); cbn; repeat split; auto.
        -- rewrite (async_update_fetched now api self device'
                      Hwin Hskip Hapi Hconn).
           cbv zeta. destruct (_update_device_attrs _) as [[r s] t] eqn:Hattrs.
           destruct (_update_device_attrs_frame _ _ _ _ Hattrs)
             as (_ & Hcount & Hlast & _).
           destruct (_update_device_attrs_flags _ _ _ _ Hattrs)
             as (Hflag & Hname & _).
           cbn [fst snd]. rewrite Hcount, Hlast, Hflag, Hname.
           destruct (_available self); cbn; repeat split; auto; lia.
      * destruct e as [exp| | | | |];
          try (rewrite (async_update_other_exception now api self _ device'
                          Hwin Hskip Hapi) by discriminate;
               cbn; repeat split; auto).
        rewrite (async_update_transport_error now api self exp device'
                   Hwin Hskip Hapi).
        cbn. repeat split; auto. lia.
Qed.


(** Polling alone keeps an entity that is past its first poll and has no
    command timestamp pending in that condition. *)
Lemma poll_cycles_keep_polling (ticks : list (Z * ElectraAPI)) (self : ElectraClimate) :
  _skip_update self = false ->
  _last_state_update self = 0 ->
  _skip_update (poll_cycles ticks self).2 = false
  /\ _last_state_update (poll_cycles ticks self).2 = 0.
Proof.
  revert self. induction ticks as [|[now api] ticks IH]; intros self Hskip Hlast.
  - split; assumption.
  - cbn [poll_cycles].
    destruct (async_update_frame now api self) as ([(_ & _ & Hsame) | [Hl Hs]] & _ & _);
      destruct (async_update now api self) as [[r self'] t]; cbn [fst snd] in *;
      specialize (IH self');
      destruct (poll_cycles ticks self') as [rs self'']; cbn [fst snd] in *;
      apply IH; congruence.
Qed.
End PollingExtras.

Section PollingProperties.
Context {hass : Hass} {lib : ElectraLib} {const : Const}.

(** X1.  The first poll of an entity fresh from [__init__] never calls the
    telemetry API: its outcome is the same whatever the API would answer,
    the device is still the one discovered and the first-poll flag is down
    afterwards.  The poll that follows it starts with a telemetry call for
    that device, and so does every later poll as long as the host only
    polls: after any run of polls from that state, whatever the clock and
    the API did during them, the next poll starts with a telemetry call
    for the device the entity then holds.  A command in between opens a
    skip window, inside which a poll makes no call. *)
Theorem first_poll_makes_no_call (device : ElectraAirConditioner)
    (now : Z) (api : ElectraAPI) :
  let run := async_update now api (ElectraClimate__init__ device) in
  ~ fetches run.2
  /\ (forall api', async_update now api' (ElectraClimate__init__ device) = run)
  /\ _electra_ac_device run.1.2 = device
  /\ _skip_update run.1.2 = false
  /\ (forall now' api', exists t,
        (async_update now' api' run.1.2).2 = GetLastTelemtry device :: t)
  /\ (forall (ticks : list (Z * ElectraAPI)) now' api',
        let self' := (poll_cycles ticks run.1.2).2 in
        exists t,
          (async_update now' api' self').2
          = GetLastTelemtry (_electra_ac_device self') :: t).
Proof.
  intros run.
  assert (Hwin : past_skip_window now (ElectraClimate__init__ device))
    by (left; reflexivity).
  assert (Hrun : forall api',
             async_update now api' (ElectraClimate__init__ device) = run).
  { intros api'. unfold run.
    rewrite !(async_update_first now _ _ Hwin eq_refl). reflexivity. }
  assert (Hstate : _electra_ac_device run.1.2 = device
                   /\ _skip_update run.1.2 = false
                   /\ _last_state_update run.1.2 = 0
                   /\ ~ fetches run.2).
  { unfold run. rewrite (async_update_first now api _ Hwin eq_refl). cbv zeta.
    destruct (is_disconnected _ _).
    - cbn. repeat split. intros [d Hd].
      apply list_elem_of_singleton in Hd. discriminate Hd.
    - destruct (_update_device_attrs _) as [[r s] t] eqn:Hattrs.
      destruct (_update_device_attrs_frame _ _ _ _ Hattrs)
        as (Hdev & _ & Hlast & _ & -> & _).
      destruct (_update_device_attrs_flags _ _ _ _ Hattrs) as (Hflag & _ & _).
      cbn [fst snd]. rewrite Hdev, Hlast, Hflag. repeat split.
      intros [d Hd]. cbn in Hd.
      apply list_elem_of_singleton in Hd. discriminate Hd. }
  destruct Hstate as (Hdev & Hflag & Hlast & Hnofetch).
  split_and!; try assumption.
  - intros now' api'.
    destruct (async_update_calls_api now' api' run.1.2) as [t Ht];
      [left; exact Hlast | exact Hflag |].
    exists t. rewrite Ht, Hdev. reflexivity.
  - intros ticks now' api' self'.
    destruct (poll_cycles_keep_polling ticks run.1.2 Hflag Hlast)
      as [Hflag' Hlast'].
    apply async_update_calls_api; [left; exact Hlast' | exact Hflag'].
Qed.

(** X2.  Only [ElectraApiError] counts as a transport failure: when the
    telemetry call raises anything else, the poll lets it through, with the
    failure counter and every display attribute as they were and no
    warning logged. *)
Theorem only_transport_errors_count (now : Z) (api : ElectraAPI)
    (self : ElectraClimate) (e : exn) (device' : ElectraAirConditioner) :
  past_skip_window now self ->
  _skip_update self = false ->
  api_get_last_telemtry api (_electra_ac_device self) = (Raise e, device') ->
  (forall msg, e <> ElectraApiError msg) ->
  let run := async_update now api self in
  run.1.1 = Raise e
  /\ _consecutive_failures run.1.2 = _consecutive_failures self
  /\ display_attributes run.1.2 = display_attributes self
  /\ ~ warns run.2.
Proof.
  intros Hwin Hskip Hapi Hother run. unfold run.
  rewrite (async_update_other_exception now api self e device'
             Hwin Hskip Hapi Hother).
  cbn. repeat split. intros [fmt Hlog].
  apply list_elem_of_singleton in Hlog. discriminate Hlog.
Qed.

(** X3.  A poll whose telemetry call returns logs a warning exactly when
    the availability changes, that is when the entity was available and the
    device is now out of contact or the reverse; and if the poll returns,
    its availability flag then says whether the device is in contact. *)
Theorem warning_only_on_availability_change (now : Z) (api : ElectraAPI)
    (self : ElectraClimate) (device' : ElectraAirConditioner) :
  past_skip_window now self ->
  _skip_update self = false ->
  api_get_last_telemtry api (_electra_ac_device self) = (Return tt, device') ->
  let run := async_update now api self in
  (warns run.2
   <-> _available self = is_disconnected device' UNAVAILABLE_THRESH_SEC)
  /\ (run.1.1 = Return tt ->
      _available run.1.2 = negb (is_disconnected device' UNAVAILABLE_THRESH_SEC)).
Proof.
  intros Hwin Hskip Hapi run. unfold run.
  destruct (is_disconnected device' UNAVAILABLE_THRESH_SEC) eqn:Hconn.
  - rewrite (async_update_disconnected now api self device' Hwin Hskip Hapi Hconn).
    cbv zeta. destruct (_available self) eqn:Hav; cbn; rewrite ?Hav.
    + split; [| reflexivity]. split; [reflexivity|].
      intros _. eexists. apply list_elem_of_further, list_elem_of_here.
    + split; [| reflexivity]. split; [| discriminate].
      intros [fmt Hlog]. apply list_elem_of_singleton in Hlog. discriminate Hlog.
  - rewrite (async_update_fetched now api self device' Hwin Hskip Hapi Hconn).
    cbv zeta. destruct (_update_device_attrs _) as [[r s] t] eqn:Hattrs.
    destruct (_update_device_attrs_frame _ _ _ _ Hattrs)
      as (_ & _ & _ & _ & -> & _).
    destruct (_update_device_attrs_flags _ _ _ _ Hattrs) as (_ & _ & Havail).
    cbn [fst snd]. rewrite Havail.
    destruct (_available self) eqn:Hav; cbn; rewrite ?Hav.
    + split; [| reflexivity]. split; [| discriminate].
      intros [fmt Hlog]. rewrite !elem_of_cons in Hlog.
      destruct Hlog as [Hlog | [Hlog | Hlog]]; try discriminate Hlog.
      apply elem_of_nil in Hlog. destruct Hlog.
    + split; [| reflexivity]. split; [reflexivity|].
      intros _. eexists. apply list_elem_of_further, list_elem_of_here.
Qed.


(** X5.  Polling alone never opens a skip window: after any sequence of
    polls from [__init__] no command timestamp is pending, the first-poll
    flag is down once one poll has run, the entity keeps the name of its
    device and the failure counter is not negative. *)
Theorem polling_never_opens_skip_window (ticks : list (Z * ElectraAPI))
    (device : ElectraAirConditioner) :
  let self := (poll_cycles ticks (ElectraClimate__init__ device)).2 in
  _last_state_update self = 0
  /\ (ticks <> [] -> _skip_update self = false)
  /\ _attr_name self = name device
  /\ 0 <= _consecutive_failures self.
Proof.
  assert (Hgen : forall (ticks : list (Z * ElectraAPI)) (self : ElectraClimate),
             _last_state_update self = 0 ->
             0 <= _consecutive_failures self ->
             let self' := (poll_cycles ticks self).2 in
             _last_state_update self' = 0
             /\ (ticks <> [] \/ _skip_update self = false ->
                 _skip_update self' = false)
             /\ _attr_name self' = _attr_name self
             /\ 0 <= _consecutive_failures self').
  { clear ticks. induction ticks as [|[now api] ticks IH];
      intros self Hlast Hcount.
    - cbn. repeat split; auto. intros [Hne | Hflag]; [congruence | exact Hflag].
    - cbn [poll_cycles].
      destruct (async_update_frame now api self) as (Hwindow & Hname & Hpos).
      destruct (async_update now api self) as [[r self1] t]. cbn [fst snd] in *.
      destruct Hwindow as [[Hstamp _] | [Hlast1 Hflag1]]; [congruence|].
      specialize (IH self1 Hlast1 (Hpos Hcount)).
      destruct (poll_cycles ticks self1) as [rs self2]. cbn [fst snd] in *.
      destruct IH as (Hlast2 & Hflag2 & Hname2 & Hpos2).
      split; [exact Hlast2|]. split; [intros _; apply Hflag2; right; exact Hflag1|].
      split; [congruence | exact Hpos2]. }
  intros self.
  destruct (Hgen ticks (ElectraClimate__init__ device) eq_refl)
    as (Hlast & Hflag & Hname & Hpos); [cbn; lia|].
  repeat split; auto.
Qed.
End PollingProperties.

Section CommandFacts.
Context {hass : Hass} {lib : ElectraLib} {const : Const}.

Lemma set_electra_ac_device_same (self : ElectraClimate) :
  set_electra_ac_device (_electra_ac_device self) self = self.
Proof. destruct self. reflexivity. Qed.

Lemma translatable_returns (self : ElectraClimate) :
  translatable (_electra_ac_device self)
  <-> (_update_device_attrs self).1.1 = Return tt.
Proof. symmetry. apply _update_device_attrs_returns_iff. Qed.

(** The outcome of a command that the API acknowledges in full. *)
Lemma command_acknowledged (now : Z) (api : ElectraAPI) (self : ElectraClimate)
    (resp : ApiResponse) (device' : ElectraAirConditioner) :
  api_set_state api (_electra_ac_device self) = (Return resp, device') ->
  resp_status resp = STATUS_SUCCESS ->
  resp_res resp = STATUS_SUCCESS ->
  _async_update_electra_ac_state now api self
  = (let '(r, s, t) := _update_device_attrs (set_electra_ac_device device' self) in
     match r with
     | Return _ =>
         (Return tt, set_last_state_update now s,
          [SetState (_electra_ac_device self);
           WriteHaState (set_last_state_update now s)])
     | Raise e => (Raise e, s, [SetState (_electra_ac_device self)])
     end).
Proof.
  intros Hapi Hst Hres. apply Z.eqb_eq in Hst, Hres.
  unfold _async_update_electra_ac_state, set_state. run_poll.
  rewrite Hapi. run_poll. rewrite Hst, Hres. run_poll.
  destruct (_update_device_attrs _) as [[[[]|e] s] t] eqn:Hattrs;
    destruct (_update_device_attrs_frame _ _ _ _ Hattrs)
      as (_ & _ & _ & _ & -> & _); reflexivity.
Qed.

(** A poll past the skip window leaves no command timestamp pending. *)
Lemma async_update_clears_stamp (now : Z) (api : ElectraAPI) (self : ElectraClimate) :
  past_skip_window now self ->
  _last_state_update (async_update now api self).1.2 = 0.
Proof.
  intros Hwin.
  destruct (async_update_frame now api self)
    as ([(Hstamp & Hnow & _) | [Hlast _]] & _ & _); [| exact Hlast].
  destruct Hwin as [Hzero | Hlate]; [congruence | lia].
Qed.
End CommandFacts.

Section CommandProperties.
Context {hass : Hass} {lib : ElectraLib} {const : Const}.

(** X6.  For a device that is off, [_update_device_attrs] needs only the fan
    speed to be a key of its table: it returns whatever the vendor mode is,
    with HVAC mode [OFF] and with action [OFF], or no action when the
    vendor mode is [MODE_AUTO]. *)
Theorem powered_off_device_needs_no_mode (self : ElectraClimate) :
  is_on (_electra_ac_device self) = false ->
  is_Some (FAN_ELECTRA_TO_HASS !! get_fan_speed (_electra_ac_device self)) ->
  let run := _update_device_attrs self in
  run.1.1 = Return tt
  /\ _attr_hvac_mode run.1.2 = Some HVACMode.OFF
  /\ _attr_hvac_action run.1.2
     = (if String.eqb (get_mode (_electra_ac_device self)) MODE_AUTO then None
        else Some HVACAction.OFF).
Proof.
  intros Hoff Hfan run.
  assert (Hret : run.1.1 = Return tt).
  { apply _update_device_attrs_returns_iff. split; [exact Hfan|].
    rewrite Hoff. discriminate. }
  split; [exact Hret|].
  destruct run as [[r s] t] eqn:Hrun. cbn [fst snd] in *. subst r.
  destruct (_update_device_attrs_returns _ _ _ Hrun)
    as (_ & _ & _ & Hmode & Haction & _).
  rewrite Hoff in Hmode, Haction. split; assumption.
Qed.

(** X7.  [_update_device_attrs] raises nothing but [KeyError]; when it does,
    the action, swing and preset attributes keep their earlier values, and
    if the fan speed was the missing key the entity is left exactly as it
    was. *)
Theorem failed_reconciliation_is_partial (self self' : ElectraClimate)
    (e : exn) (t : list event) :
  _update_device_attrs self = (Raise e, self', t) ->
  e = KeyError
  /\ _attr_hvac_action self' = _attr_hvac_action self
  /\ _attr_swing_mode self' = _attr_swing_mode self
  /\ _attr_preset_mode self' = _attr_preset_mode self
  /\ (FAN_ELECTRA_TO_HASS !! get_fan_speed (_electra_ac_device self) = None ->
      self' = self).
Proof.
  unfold _update_device_attrs. run_attrs.
  destruct (FAN_ELECTRA_TO_HASS !! _); step;
    [| intros [= <- <- <-]; auto 10].
  destruct (is_on _); step;
    [destruct (HVAC_MODE_ELECTRA_TO_HASS !! _); step;
       [| intros [= <- <- <-]; repeat split; auto; discriminate] |];
    (destruct (String.eqb _ _); step;
       [| try (destruct (HVAC_ACTION_ELECTRA_TO_HASS !! _); step;
               [| intros [= <- <- <-]; repeat split; auto; discriminate])]);
    destruct (is_horizontal_swing _), (is_vertical_swing _); step;
    discriminate.
Qed.

(** X8.  A command the API acknowledges in full still raises [KeyError] when
    the device state cannot be translated: nothing is written to the host
    and no timestamp is recorded, so the next poll is not skipped. *)
Theorem acknowledged_command_may_fail_to_translate (now : Z) (api : ElectraAPI)
    (self : ElectraClimate) (resp : ApiResponse)
    (device' : ElectraAirConditioner) :
  api_set_state api (_electra_ac_device self) = (Return resp, device') ->
  resp_status resp = STATUS_SUCCESS ->
  resp_res resp = STATUS_SUCCESS ->
  ~ translatable device' ->
  let run := _async_update_electra_ac_state now api self in
  run.1.1 = Raise KeyError
  /\ run.2 = [SetState (_electra_ac_device self)]
  /\ _last_state_update run.1.2 = _last_state_update self.
Proof.
  intros Hapi Hst Hres Hbad run. unfold run.
  rewrite (command_acknowledged now api self resp device' Hapi Hst Hres).
  pose proof (translatable_returns (set_electra_ac_device device' self)) as Hiff.
  cbn [_electra_ac_device set_electra_ac_device] in Hiff.
  destruct (_update_device_attrs _) as [[r s] t] eqn:Hattrs.
  destruct (_update_device_attrs_frame _ _ _ _ Hattrs)
    as (_ & _ & Hlast & _ & _ & [-> | ->]).
  - destruct Hbad. apply Hiff. reflexivity.
  - cbn. repeat split. exact Hlast.
Qed.

(** X9.  A transport error during a command whose text is neither a client
    error nor a lockout is swallowed: the handler writes the entity state
    to the host once and returns normally, with the display attributes and
    the command timestamp as they were. *)
Theorem unclassified_command_error_is_swallowed (now : Z) (api : ElectraAPI)
    (self : ElectraClimate) (exp : string) (device' : ElectraAirConditioner) :
  api_set_state api (_electra_ac_device self)
  = (Raise (ElectraApiError exp), device') ->
  str_in "client error" exp = false ->
  str_in INTRUDER_LOCKOUT ("Error communicating with API: " +:+ exp) = false ->
  let self' := set_electra_ac_device device' self in
  _async_update_electra_ac_state now api self
  = (Return tt, self', [SetState (_electra_ac_device self); WriteHaState self'])
  /\ display_attributes self' = display_attributes self
  /\ _last_state_update self' = _last_state_update self.
Proof.
  intros Hapi Hclient Hlock self'. split; [| split; reflexivity].
  unfold _async_update_electra_ac_state, set_state, _async_write_ha_state.
  run_poll. rewrite Hapi. run_poll.
  rewrite client_error_in_err_message, Hclient, Hlock. reflexivity.
Qed.

(** X10.  A command acknowledged in full at a clock reading other than zero
    returns after one write of the new state to the host and records that
    reading; every poll before [API_DELAY] seconds have passed is skipped
    and changes nothing, and a poll from then on clears the timestamp. *)
Theorem acknowledged_command_opens_skip_window (now : Z) (api : ElectraAPI)
    (self : ElectraClimate) (resp : ApiResponse)
    (device' : ElectraAirConditioner) :
  api_set_state api (_electra_ac_device self) = (Return resp, device') ->
  resp_status resp = STATUS_SUCCESS ->
  resp_res resp = STATUS_SUCCESS ->
  translatable device' ->
  now <> 0 ->
  let run := _async_update_electra_ac_state now api self in
  run.1.1 = Return tt
  /\ run.2 = [SetState (_electra_ac_device self); WriteHaState run.1.2]
  /\ _last_state_update run.1.2 = now
  /\ (forall now' api', now' < now + API_DELAY ->
        async_update now' api' run.1.2
        = (Return tt, run.1.2,
           [Log DEBUG "Skipping state update, keeping old values"]))
  /\ (forall now' api', now + API_DELAY <= now' ->
        _last_state_update (async_update now' api' run.1.2).1.2 = 0).
Proof.
  intros Hapi Hst Hres Hgood Hnow run.
  assert (Hrun : run.1.1 = Return tt
                 /\ run.2 = [SetState (_electra_ac_device self);
                             WriteHaState run.1.2]
                 /\ _last_state_update run.1.2 = now).
  { unfold run.
    rewrite (command_acknowledged now api self resp device' Hapi Hst Hres).
    pose proof (translatable_returns (set_electra_ac_device device' self)) as Hiff.
    cbn [_electra_ac_device set_electra_ac_device] in Hiff.
    apply Hiff in Hgood.
    destruct (_update_device_attrs _) as [[r s] t]. cbn [fst snd] in Hgood.
    subst r. cbn. repeat split. }
  destruct Hrun as (Hret & Htrace & Hlast).
  repeat split; try assumption.
  - intros now' api' Hinside.
    apply async_update_skipped; rewrite Hlast; assumption.
  - intros now' api' Hlate. apply async_update_clears_stamp.
    right. rewrite Hlast. exact Hlate.
Qed.
End CommandProperties.

Ltac run_cmd :=
  unfold bind, get, assign, emit, ret, raise, lift, try_except_else, getitem,
    device_call;
  cbn -[_update_device_attrs _async_update_electra_ac_state
        FAN_ELECTRA_TO_HASS FAN_HASS_TO_ELECTRA HVAC_MODE_ELECTRA_TO_HASS
        HVAC_MODE_HASS_TO_ELECTRA HVAC_ACTION_ELECTRA_TO_HASS].

Section HandlerFacts.
Context {hass : Hass} {lib : ElectraLib} {const : Const}
        {dev : ElectraDevice} {svc : ServiceCall}.

(** Each supported host fan mode has a vendor speed that maps back to it. *)
Lemma fan_mode_there_and_back (f : string) :
  NoDup [FAN_SPEED_AUTO; FAN_SPEED_LOW; FAN_SPEED_MED; FAN_SPEED_HIGH] ->
  NoDup [FAN_AUTO; FAN_LOW; FAN_MEDIUM; FAN_HIGH] ->
  f ∈ _attr_fan_modes ->
  exists v, FAN_HASS_TO_ELECTRA !! f = Some v
            /\ FAN_ELECTRA_TO_HASS !! v = Some f.
Proof.
  intros Hvendor Hhost Hf. distinct Hvendor. distinct Hhost.
  unfold FAN_HASS_TO_ELECTRA, FAN_ELECTRA_TO_HASS, _attr_fan_modes, dict in *.
  cbn [foldl fst snd]. set_unfold in Hf.
  destruct Hf as [-> | [-> | [-> | [-> | []]]]]; eexists; (split; [look|]); look.
Qed.

(** Each HVAC mode other than [OFF] that the entity offers has a vendor
    mode that maps back to it. *)
Lemma hvac_mode_there_and_back (m : HVACMode.t) :
  NoDup [MODE_COOL; MODE_HEAT; MODE_FAN; MODE_DRY; MODE_AUTO] ->
  m ∈ _attr_hvac_modes ->
  m <> HVACMode.OFF ->
  exists v, HVAC_MODE_HASS_TO_ELECTRA !! m = Some v
            /\ HVAC_MODE_ELECTRA_TO_HASS !! v = Some m.
Proof.
  intros Hmode Hm Hoff. distinct Hmode.
  unfold HVAC_MODE_HASS_TO_ELECTRA, HVAC_MODE_ELECTRA_TO_HASS, _attr_hvac_modes,
    dict in *.
  cbn [foldl fst snd]. set_unfold in Hm.
  destruct Hm as [-> | [-> | [-> | [-> | [-> | [-> | []]]]]]]; try congruence;
    eexists; (split; [look|]); look.
Qed.

(** The outcome of a command on an API that acknowledges in full and hands
    the device back unchanged. *)
Lemma command_on_acknowledging_api (now : Z) (api : ElectraAPI)
    (self : ElectraClimate) :
  acknowledges api ->
  _async_update_electra_ac_state now api self
  = (let '(r, s, t) := _update_device_attrs self in
     match r with
     | Return _ =>
         (Return tt, set_last_state_update now s,
          [SetState (_electra_ac_device self);
           WriteHaState (set_last_state_update now s)])
     | Raise e => (Raise e, s, [SetState (_electra_ac_device self)])
     end).
Proof.
  intros Hack.
  destruct (Hack (_electra_ac_device self)) as (resp & Hapi & Hst & Hres).
  rewrite (command_acknowledged now api self resp _ Hapi Hst Hres).
  rewrite set_electra_ac_device_same. reflexivity.
Qed.
(** The attributes that [_update_device_attrs] assigns before it can fail
    on a later lookup. *)
Lemma _update_device_attrs_early (self self' : ElectraClimate)
    (r : result unit) (t : list event) (f : string) :
  _update_device_attrs self = (r, self', t) ->
  FAN_ELECTRA_TO_HASS !! get_fan_speed (_electra_ac_device self) = Some f ->
  _attr_fan_mode self' = Some f
  /\ forall m,
       (if is_on (_electra_ac_device self)
        then HVAC_MODE_ELECTRA_TO_HASS !! get_mode (_electra_ac_device self)
        else Some HVACMode.OFF) = Some m ->
       _attr_hvac_mode self' = Some m.
Proof.
  unfold _update_device_attrs. run_attrs. intros Hrun Hfan. revert Hrun.
  rewrite Hfan. step.
  destruct (is_on _); step;
    [destruct (HVAC_MODE_ELECTRA_TO_HASS !! _); step;
       [| intros [= <- <- <-]; split; [reflexivity | discriminate]] |];
    (destruct (String.eqb _ _); step;
       [| try (destruct (HVAC_ACTION_ELECTRA_TO_HASS !! _); step;
               [| intros [= <- <- <-];
                  split; [reflexivity | intros m Hm; cbn; congruence]])]);
    destruct (is_horizontal_swing _), (is_vertical_swing _); step;
    (intros [= <- <- <-]; split; [reflexivity | intros m Hm; cbn; congruence]).
Qed.

(** Two swing setters in a row, then the push to the API. *)
Lemma swing_command (now : Z) (api : ElectraAPI) (self : ElectraClimate)
    (h v : bool) :
  lawful_setters ->
  acknowledges api ->
  translatable (_electra_ac_device self) ->
  let run := bind (bind (device_call (set_horizontal_swing h))
                     (fun _ => device_call (set_vertical_swing v)))
               (fun _ => _async_update_electra_ac_state now api)
               self in
  run.1.1 = Return tt
  /\ _last_state_update run.1.2 = now
  /\ _attr_swing_mode run.1.2
     = Some (if h && v then SWING_BOTH
             else if h then SWING_HORIZONTAL
             else if v then SWING_VERTICAL
             else SWING_OFF).
Proof.
  intros Hlaw Hack Hgood run. subst run. run_cmd.
  destruct (set_horizontal_swing_ok Hlaw h (_electra_ac_device self))
    as (d1 & -> & Hh1 & Hv1 & Hfan1 & Hmode1 & Hon1).
  run_cmd.
  destruct (set_vertical_swing_ok Hlaw v d1)
    as (d2 & -> & Hv2 & Hh2 & Hfan2 & Hmode2 & Hon2).
  run_cmd.
  rewrite (command_on_acknowledging_api now api _ Hack).
  set (s2 := set_electra_ac_device d2 _).
  assert (Hgood2 : translatable (_electra_ac_device s2)).
  { subst s2. cbn [_electra_ac_device set_electra_ac_device].
    unfold translatable in *.
    rewrite Hfan2, Hmode2, Hon2, Hfan1, Hmode1, Hon1. exact Hgood. }
  apply translatable_returns in Hgood2.
  destruct (_update_device_attrs s2) as [[r s] t] eqn:Hattrs.
  cbn [fst snd] in Hgood2. subst r.
  destruct (_update_device_attrs_returns _ _ _ Hattrs)
    as (_ & _ & _ & _ & _ & Hswing & _).
  subst s2. cbn [_electra_ac_device set_electra_ac_device] in Hswing.
  rewrite Hh2, Hh1, Hv2 in Hswing.
  cbn. rewrite Hswing. repeat split.
Qed.
(** A vendor mode that a host mode translates to is [MODE_AUTO] or has an
    action. *)
Lemma vendor_mode_has_action (m : HVACMode.t) (v : string) :
  NoDup [MODE_COOL; MODE_HEAT; MODE_FAN; MODE_DRY; MODE_AUTO] ->
  HVAC_MODE_HASS_TO_ELECTRA !! m = Some v ->
  v = MODE_AUTO \/ is_Some (HVAC_ACTION_ELECTRA_TO_HASS !! v).
Proof.
  intros Hmode Hv. distinct Hmode.
  unfold HVAC_MODE_HASS_TO_ELECTRA, HVAC_ACTION_ELECTRA_TO_HASS, dict in *.
  cbn [foldl fst snd] in *.
  repeat (apply lookup_insert_Some in Hv as [[_ <-] | [_ Hv]];
          [first [left; reflexivity | right; look] |]).
  rewrite lookup_empty in Hv. discriminate.
Qed.

(** A host fan mode outside the entity's list is not a key of the table. *)
Lemma fan_mode_outside_list (f : string) :
  f ∉ _attr_fan_modes -> FAN_HASS_TO_ELECTRA !! f = None.
Proof.
  unfold _attr_fan_modes, FAN_HASS_TO_ELECTRA, dict. cbn [foldl fst snd].
  rewrite !not_elem_of_cons. intros (Hauto & Hhigh & Hmedium & Hlow & _).
  rewrite !lookup_insert_ne by congruence. apply lookup_empty.
Qed.
End HandlerFacts.

Section HandlerProperties.
Context {hass : Hass} {lib : ElectraLib} {const : Const}
        {dev : ElectraDevice} {svc : ServiceCall}.

(** X11.  The swing modes [__init__] offers follow the features of the
    device: vertical and horizontal each with their own feature, "both"
    with the two together, "off" with at least one; the list has no
    repetition (and is empty without either feature). *)
Theorem swing_modes_follow_features (features : list Feature) :
  NoDup [SWING_VERTICAL; SWING_HORIZONTAL; SWING_BOTH; SWING_OFF] ->
  let modes := _attr_swing_modes features in
  (SWING_VERTICAL ∈ modes <-> V_SWING ∈ features)
  /\ (SWING_HORIZONTAL ∈ modes <-> H_SWING ∈ features)
  /\ (SWING_BOTH ∈ modes <-> V_SWING ∈ features /\ H_SWING ∈ features)
  /\ (SWING_OFF ∈ modes <-> V_SWING ∈ features \/ H_SWING ∈ features)
  /\ NoDup modes.
Proof.
  intros Hswing modes. pose proof Hswing as Hnodup. distinct Hswing.
  subst modes. unfold _attr_swing_modes.
  destruct (bool_decide (V_SWING ∈ features)) eqn:Hv;
    destruct (bool_decide (H_SWING ∈ features)) eqn:Hh;
    [apply bool_decide_eq_true in Hv | apply bool_decide_eq_true in Hv
    | apply bool_decide_eq_false in Hv | apply bool_decide_eq_false in Hv];
    [apply bool_decide_eq_true in Hh | apply bool_decide_eq_false in Hh
    | apply bool_decide_eq_true in Hh | apply bool_decide_eq_false in Hh];
    cbn [app].
  all: repeat first
         [ rewrite bool_decide_eq_true_2
             by (rewrite ?elem_of_cons, ?elem_of_nil; tauto)
         | rewrite bool_decide_eq_false_2
             by (rewrite ?elem_of_cons, ?elem_of_nil; intuition congruence) ];
       cbn [andb app];
       split_and!; rewrite ?elem_of_cons, ?elem_of_nil;
       first [ tauto
             | intuition congruence
             | apply NoDup_ListNoDup; repeat constructor; cbn;
               intuition congruence ].
Qed.

(** X12.  Setting a fan mode the entity offers, with setters that store
    what they are given and an API that acknowledges, leaves that fan mode
    as the displayed one, the device holding its vendor translation; if the
    device state is translatable the command returns and records the clock
    reading. *)
Theorem fan_mode_command_round_trip (now : Z) (api : ElectraAPI)
    (self : ElectraClimate) (fan_mode : string) :
  lawful_setters ->
  acknowledges api ->
  NoDup [FAN_SPEED_AUTO; FAN_SPEED_LOW; FAN_SPEED_MED; FAN_SPEED_HIGH] ->
  NoDup [FAN_AUTO; FAN_LOW; FAN_MEDIUM; FAN_HIGH] ->
  fan_mode ∈ _attr_fan_modes ->
  let run := async_set_fan_mode now api fan_mode self in
  _attr_fan_mode run.1.2 = Some fan_mode
  /\ FAN_HASS_TO_ELECTRA !! fan_mode
     = Some (get_fan_speed (_electra_ac_device run.1.2))
  /\ (translatable (_electra_ac_device self) ->
      run.1.1 = Return tt /\ _last_state_update run.1.2 = now).
Proof.
  intros Hlaw Hack Hvendor Hhost Hin run. subst run.
  destruct (fan_mode_there_and_back fan_mode Hvendor Hhost Hin)
    as (v & Hthere & Hback).
  unfold async_set_fan_mode. run_cmd. rewrite Hthere. run_cmd.
  destruct (set_fan_speed_ok Hlaw v (_electra_ac_device self))
    as (d1 & -> & Hfan1 & Hmode1 & Hon1).
  run_cmd. rewrite (command_on_acknowledging_api now api _ Hack).
  set (s1 := set_electra_ac_device d1 self).
  pose proof (translatable_returns s1) as Hiff.
  destruct (_update_device_attrs s1) as [[r s] t] eqn:Hattrs.
  destruct (_update_device_attrs_frame _ _ _ _ Hattrs) as (Hdev & _).
  destruct (_update_device_attrs_early _ _ _ _ fan_mode Hattrs) as [Hfan _].
  { subst s1. cbn. rewrite Hfan1. exact Hback. }
  cbn [fst snd] in Hiff.
  assert (Hspeed : get_fan_speed (_electra_ac_device s) = v).
  { rewrite Hdev. subst s1. exact Hfan1. }
  split; [destruct r; exact Hfan|].
  split; [destruct r; cbn; rewrite Hspeed; reflexivity|].
  intros Hgood.
  assert (Hret : r = Return tt).
  { apply Hiff. subst s1. cbn [_electra_ac_device set_electra_ac_device].
    unfold translatable in *. rewrite Hfan1, Hmode1, Hon1, Hback.
    split; [eauto | apply Hgood]. }
  subst r. cbn. split; reflexivity.
Qed.

(** X13.  Setting a swing mode, under the same conditions on a translatable
    device, returns with that mode displayed when it is "both", "vertical"
    or "horizontal", and with "off" displayed for any other text. *)
Theorem swing_mode_command_round_trip (now : Z) (api : ElectraAPI)
    (self : ElectraClimate) (swing_mode : string) :
  lawful_setters ->
  acknowledges api ->
  translatable (_electra_ac_device self) ->
  let run := async_set_swing_mode now api swing_mode self in
  run.1.1 = Return tt
  /\ _last_state_update run.1.2 = now
  /\ _attr_swing_mode run.1.2
     = Some (if bool_decide
                  (swing_mode ∈ [SWING_BOTH; SWING_VERTICAL; SWING_HORIZONTAL])
             then swing_mode else SWING_OFF).
Proof.
  intros Hlaw Hack Hgood run. subst run. unfold async_set_swing_mode.
  destruct (String.eqb_spec swing_mode SWING_BOTH) as [-> | Hboth].
  { rewrite bool_decide_eq_true_2 by (rewrite !elem_of_cons; tauto).
    apply (swing_command now api self true true Hlaw Hack Hgood). }
  destruct (String.eqb_spec swing_mode SWING_VERTICAL) as [-> | Hvert].
  { rewrite bool_decide_eq_true_2 by (rewrite !elem_of_cons; tauto).
    apply (swing_command now api self false true Hlaw Hack Hgood). }
  destruct (String.eqb_spec swing_mode SWING_HORIZONTAL) as [-> | Hhor].
  { rewrite bool_decide_eq_true_2 by (rewrite !elem_of_cons; tauto).
    apply (swing_command now api self true false Hlaw Hack Hgood). }
  rewrite bool_decide_eq_false_2
    by (rewrite !elem_of_cons, elem_of_nil; tauto).
  apply (swing_command now api self false false Hlaw Hack Hgood).
Qed.

(** X14.  Setting an HVAC mode the entity offers, under the same conditions
    on a device whose fan speed is translatable, returns with that mode
    displayed; the device is off for [OFF] and on for every other mode. *)
Theorem hvac_mode_command_round_trip (now : Z) (api : ElectraAPI)
    (self : ElectraClimate) (hvac_mode : HVACMode.t) :
  lawful_setters ->
  acknowledges api ->
  NoDup [MODE_COOL; MODE_HEAT; MODE_FAN; MODE_DRY; MODE_AUTO] ->
  hvac_mode ∈ _attr_hvac_modes ->
  is_Some (FAN_ELECTRA_TO_HASS !! get_fan_speed (_electra_ac_device self)) ->
  let run := async_set_hvac_mode now api hvac_mode self in
  run.1.1 = Return tt
  /\ _attr_hvac_mode run.1.2 = Some hvac_mode
  /\ is_on (_electra_ac_device run.1.2)
     = negb (bool_decide (hvac_mode = HVACMode.OFF))
  /\ _last_state_update run.1.2 = now.
Proof.
  intros Hlaw Hack Hmode Hin Hfan run. subst run. unfold async_set_hvac_mode.
  destruct (bool_decide (hvac_mode = HVACMode.OFF)) eqn:Hoff.
  - apply bool_decide_eq_true in Hoff. subst hvac_mode. run_cmd.
    destruct (turn_off_ok Hlaw (_electra_ac_device self))
      as (d1 & -> & Hon1 & Hfan1 & Hmode1).
    run_cmd. rewrite (command_on_acknowledging_api now api _ Hack).
    set (s1 := set_electra_ac_device d1 self).
    pose proof (translatable_returns s1) as Hiff.
    destruct Hfan as [f Hf].
    destruct (_update_device_attrs s1) as [[r s] t] eqn:Hattrs.
    destruct (_update_device_attrs_frame _ _ _ _ Hattrs) as (Hdev & _).
    destruct (_update_device_attrs_early _ _ _ _ f Hattrs) as [_ Hm].
    { subst s1. cbn. rewrite Hfan1. exact Hf. }
    specialize (Hm HVACMode.OFF).
    subst s1. cbn [_electra_ac_device set_electra_ac_device fst snd] in *.
    rewrite Hon1 in Hm. specialize (Hm eq_refl).
    assert (Hret : r = Return tt).
    { apply Hiff. unfold translatable. rewrite Hfan1, Hon1, Hf.
      split; [eauto | discriminate]. }
    subst r. cbn. rewrite Hdev. cbn. repeat split; assumption.
  - apply bool_decide_eq_false in Hoff.
    destruct (hvac_mode_there_and_back hvac_mode Hmode Hin Hoff)
      as (v & Hthere & Hback).
    run_cmd. rewrite Hthere. run_cmd.
    destruct (set_mode_ok Hlaw v (_electra_ac_device self))
      as (d1 & -> & Hmode1 & Hfan1).
    run_cmd.
    destruct (turn_on_ok Hlaw d1) as (d2 & -> & Hon2 & Hfan2 & Hmode2).
    run_cmd. rewrite (command_on_acknowledging_api now api _ Hack).
    set (s2 := set_electra_ac_device d2 _).
    pose proof (translatable_returns s2) as Hiff.
    destruct Hfan as [f Hf].
    destruct (_update_device_attrs s2) as [[r s] t] eqn:Hattrs.
    destruct (_update_device_attrs_frame _ _ _ _ Hattrs) as (Hdev & _).
    destruct (_update_device_attrs_early _ _ _ _ f Hattrs) as [_ Hm].
    { subst s2. cbn. rewrite Hfan2, Hfan1. exact Hf. }
    specialize (Hm hvac_mode).
    subst s2. cbn [_electra_ac_device set_electra_ac_device fst snd] in *.
    rewrite Hon2, Hmode2, Hmode1 in Hm. specialize (Hm Hback).
    assert (Hret : r = Return tt).
    { apply Hiff. unfold translatable.
      rewrite Hfan2, Hfan1, Hon2, Hmode2, Hmode1, Hf, Hback.
      split; [eauto|]. intros _. split; [eauto|]. intros Hauto.
      destruct (vendor_mode_has_action hvac_mode v Hmode Hthere)
        as [-> | Haction]; [| exact Haction].
      rewrite String.eqb_refl in Hauto. discriminate. }
    subst r. cbn. rewrite Hdev. cbn. repeat split; assumption.
Qed.

(** X15.  A command whose argument cannot be used raises before any setter
    or API call, leaving the entity untouched: a fan mode outside the
    offered list and the HVAC mode [HEAT_COOL] raise [KeyError], as does a
    temperature call without the temperature argument; a temperature that
    [int] rejects raises what [int] raised. *)
Theorem rejected_arguments_touch_nothing (now : Z) (api : ElectraAPI)
    (self : ElectraClimate) :
  (forall fan_mode, fan_mode ∉ _attr_fan_modes ->
     async_set_fan_mode now api fan_mode self = (Raise KeyError, self, []))
  /\ async_set_hvac_mode now api HVACMode.HEAT_COOL self
     = (Raise KeyError, self, [])
  /\ (forall kwargs : gmap string Any, kwargs !! ATTR_TEMPERATURE = None ->
        async_set_temperature now api kwargs self = (Raise KeyError, self, []))
  /\ (forall (kwargs : gmap string Any) x e,
        kwargs !! ATTR_TEMPERATURE = Some x -> int x = Raise e ->
        async_set_temperature now api kwargs self = (Raise e, self, [])).
Proof.
  split_and!.
  - intros fan_mode Hout. unfold async_set_fan_mode. run_cmd.
    rewrite (fan_mode_outside_list fan_mode Hout). reflexivity.
  - reflexivity.
  - intros kwargs Hnone. unfold async_set_temperature. run_cmd.
    rewrite Hnone. reflexivity.
  - intros kwargs x e Hsome Hint. unfold async_set_temperature. run_cmd.
    rewrite Hsome. run_cmd. rewrite Hint. reflexivity.
Qed.
End HandlerProperties.

Ltac unfold_flow :=
  unfold _validate_phone_number, _validate_one_time_password,
    async_step_user, async_step_one_time_password, async_set_unique_id,
    _abort_if_unique_id_configured, generate_new_token,
    validate_one_time_password, _show_setup_form, _show_otp_form.

Ltac flow := repeat progress (unfold_flow; run_flow).

Section WizardProperties.
Context {hass : Hass} {lib : ElectraLib} {const : Const}.

(** X16.  A transport error in either wizard step shows the form of that
    step again with the error [cannot_connect] under "base" and the entry
    just typed as the default, after one error log record; the OTP step
    leaves the token as it was. *)
Theorem wizard_transport_errors_redisplay :
  (forall (host : FlowHost) (api : ElectraAPI) (imei phone_number exp : string)
          (user_input : gmap string string) (self : ConfigFlow),
     user_input !! CONF_PHONE_NUMBER = Some phone_number ->
     not_aborted host self phone_number ->
     api_generate_new_token api (Some phone_number) (Some imei)
     = Raise (ElectraApiError exp) ->
     let run := _validate_phone_number host api imei user_input self in
     run.1.1
     = Return (async_show_form "user"
                 (dict [ (CONF_PHONE_NUMBER, Some phone_number) ])
                 (dict [ ("base", "cannot_connect") ]))
     /\ run.2 = [ GenerateNewToken (Some phone_number) (Some imei);
                  Log ERROR "Failed to connect to API: %s" ])
  /\ (forall (api : ElectraAPI) (otp exp : string)
             (user_input : gmap string string) (self : ConfigFlow),
        user_input !! CONF_OTP = Some otp ->
        CONF_OTP <> "user" ->
        api_validate_one_time_password api
          (Some otp) (_imei self) (_phone_number self)
        = Raise (ElectraApiError exp) ->
        let run := _validate_one_time_password api user_input self in
        run.1.1
        = Return (async_show_form CONF_OTP
                    (dict [ (CONF_OTP, Some otp) ])
                    (dict [ ("base", "cannot_connect") ]))
        /\ run.2 = [ ValidateOneTimePassword
                       (Some otp) (_imei self) (_phone_number self);
                     Log ERROR "Failed to connect to API: %s" ]
        /\ _token run.1.2 = _token self).
Proof.
  split.
  - intros host api imei phone_number exp user_input self Hin Hhost Hapi run.
    subst run. unfold_flow. run_flow. rewrite Hin. run_flow.
    destruct Hhost as [[id Hid] | [Hset Hconf]].
    + rewrite Hid. run_flow. rewrite Hapi. run_flow. rewrite ?Hin.
      split; reflexivity.
    + destruct (unique_id self) as [id|]; run_flow.
      * rewrite Hapi. run_flow. rewrite ?Hin. split; reflexivity.
      * rewrite Hset. run_flow. rewrite Hconf. run_flow.
        rewrite Hapi. run_flow. rewrite ?Hin. split; reflexivity.
  - intros api otp exp user_input self Hin Hstep Hapi run.
    subst run. unfold_flow. run_flow. rewrite Hin. run_flow.
    rewrite Hapi. run_flow. apply String.eqb_neq in Hstep. rewrite Hstep.
    rewrite ?Hin. repeat split.
Qed.

(** X17.  The wizard end to end: a phone number the host accepts and whose
    token request is not refused leads to the OTP form; a validated OTP
    then creates the entry titled with that phone number, holding the
    token of the validation response, the IMEI generated at the phone step
    and the phone number.  The API is called twice, with those values. *)
Theorem wizard_end_to_end (host : FlowHost) (api : ElectraAPI)
    (imei phone_number otp : string) (phone_input otp_input : gmap string string)
    (sent validated : ApiResponse) :
  phone_input !! CONF_PHONE_NUMBER = Some phone_number ->
  otp_input !! CONF_OTP = Some otp ->
  host_set_unique_id host phone_number = Return tt ->
  host_abort_if_unique_id_configured host (Some phone_number) = Return tt ->
  api_generate_new_token api (Some phone_number) (Some imei) = Return sent ->
  (resp_status sent = STATUS_SUCCESS -> resp_res sent = STATUS_SUCCESS) ->
  api_validate_one_time_password api (Some otp) (Some imei) (Some phone_number)
  = Return validated ->
  resp_res validated = STATUS_SUCCESS ->
  let first := async_step_user host api imei (Some phone_input) ConfigFlow__init__ in
  let second := async_step_one_time_password api (Some otp_input) None first.1.2 in
  first.1.1 = Return (async_show_form CONF_OTP (dict [ (CONF_OTP, None) ]) ∅)
  /\ second.1.1
     = Return (async_create_entry (Some phone_number)
                 (dict [ (CONF_TOKEN, Some (resp_token validated));
                         (CONF_IMEI, Some imei);
                         (CONF_PHONE_NUMBER, Some phone_number) ]))
  /\ unique_id second.1.2 = Some phone_number
  /\ first.2 ++ second.2
     = [ GenerateNewToken (Some phone_number) (Some imei);
         ValidateOneTimePassword (Some otp) (Some imei) (Some phone_number) ].
Proof.
  intros Hphone Hotp Hset Hconf Hsent Hok Hval Hres first second.
  apply Z.eqb_eq in Hres.
  assert (Hfirst : first
                   = (Return (async_show_form CONF_OTP
                                (dict [ (CONF_OTP, None) ]) ∅),
                      set_unique_id (Some phone_number)
                        (set_imei (Some imei)
                           (set_phone_number (Some phone_number)
                              ConfigFlow__init__)),
                      [GenerateNewToken (Some phone_number) (Some imei)])).
  { subst first. flow. rewrite Hphone. flow.
    rewrite Hset. flow. rewrite Hconf. flow. rewrite Hsent. flow.
    destruct (resp_status sent =? STATUS_SUCCESS) eqn:Hst; [| reflexivity].
    apply Z.eqb_eq in Hst. apply Hok in Hst. apply Z.eqb_eq in Hst.
    rewrite Hst. reflexivity. }
  subst second. rewrite Hfirst. cbn [fst snd].
  flow. rewrite Hotp. flow. rewrite Hval. flow.
  rewrite Hres. flow. repeat split.
Qed.

(** X18.  The unique id is set once: when the flow already has one, the
    phone step does not consult the host (its outcome is the same for any
    host) and keeps that id, even though it stores the phone number just
    entered. *)
Theorem unique_id_is_set_once (host host' : FlowHost) (api : ElectraAPI)
    (imei id : string) (user_input : gmap string string) (self : ConfigFlow) :
  unique_id self = Some id ->
  let run := _validate_phone_number host api imei user_input self in
  run = _validate_phone_number host' api imei user_input self
  /\ unique_id run.1.2 = Some id
  /\ (forall phone_number, user_input !! CONF_PHONE_NUMBER = Some phone_number ->
        _phone_number run.1.2 = Some phone_number).
Proof.
  intros Hid run. subst run. unfold_flow. run_flow.
  destruct (user_input !! CONF_PHONE_NUMBER) as [phone_number|] eqn:Hin; run_flow.
  - rewrite Hid. run_flow.
    destruct (api_generate_new_token _ _ _) as [resp|[]]; run_flow;
      try (repeat split; congruence).
    destruct (_ =? _); [destruct (_ =? _)|]; run_flow; repeat split; congruence.
  - repeat split; [exact Hid | discriminate].
Qed.

(** X19.  When the host aborts the flow at the phone step, the exception
    is raised before the API is contacted: the trace is empty and no token
    is stored. *)
Theorem abort_precedes_api_call (host : FlowHost) (api : ElectraAPI)
    (imei phone_number : string) (user_input : gmap string string)
    (self : ConfigFlow) (e : exn) :
  user_input !! CONF_PHONE_NUMBER = Some phone_number ->
  unique_id self = None ->
  host_set_unique_id host phone_number = Raise e
  \/ (host_set_unique_id host phone_number = Return tt
      /\ host_abort_if_unique_id_configured host (Some phone_number) = Raise e) ->
  let run := _validate_phone_number host api imei user_input self in
  run.1.1 = Raise e
  /\ run.2 = []
  /\ _token run.1.2 = _token self.
Proof.
  intros Hin Hnone Hhost run. subst run. unfold_flow. run_flow.
  rewrite Hin. run_flow. rewrite Hnone. run_flow.
  destruct Hhost as [Hset | [Hset Hconf]]; rewrite Hset; run_flow.
  - repeat split.
  - rewrite Hconf. run_flow. repeat split.
Qed.

(** X20.  User input that lacks the field of its step raises [KeyError]
    at once: the session is unchanged and the API is not contacted. *)
Theorem missing_field_raises_KeyError (host : FlowHost) (api : ElectraAPI)
    (imei : string) (user_input : gmap string string) (self : ConfigFlow) :
  (user_input !! CONF_PHONE_NUMBER = None ->
   async_step_user host api imei (Some user_input) self
   = (Raise KeyError, self, []))
  /\ (user_input !! CONF_OTP = None ->
      async_step_one_time_password api (Some user_input) None self
      = (Raise KeyError, self, [])).
Proof.
  split; intros Hnone; flow; rewrite Hnone; reflexivity.
Qed.

(** X21.  An entry is created only by the OTP step and only for a success
    result: the phone step never creates one and never touches the token;
    the OTP step either stores the token of a success response and creates
    the entry titled with the stored phone number, or creates nothing and
    leaves the token as it was. *)
Theorem entry_only_after_validated_otp (host : FlowHost) (api : ElectraAPI)
    (imei : string) (user_input : gmap string string) (self : ConfigFlow) :
  let phone := _validate_phone_number host api imei user_input self in
  let code := _validate_one_time_password api user_input self in
  (forall title data, phone.1.1 <> Return (async_create_entry title data))
  /\ _token phone.1.2 = _token self
  /\ ((exists otp resp,
         user_input !! CONF_OTP = Some otp
         /\ api_validate_one_time_password api
              (Some otp) (_imei self) (_phone_number self) = Return resp
         /\ resp_res resp = STATUS_SUCCESS
         /\ _token code.1.2 = Some (resp_token resp)
         /\ exists data,
              code.1.1 = Return (async_create_entry (_phone_number self) data))
      \/ (_token code.1.2 = _token self
          /\ forall title data,
               code.1.1 <> Return (async_create_entry title data))).
Proof.
  intros phone code. split_and!.
  - intros title data. subst phone. flow.
    destruct (user_input !! CONF_PHONE_NUMBER); flow; [| discriminate].
    destruct (unique_id self); flow.
    + destruct (api_generate_new_token _ _ _) as [resp|[]]; flow;
        try discriminate.
      destruct (_ =? _); [destruct (_ =? _)|]; flow; discriminate.
    + destruct (host_set_unique_id _ _) as [[]|e]; flow; [| discriminate].
      destruct (host_abort_if_unique_id_configured _ _) as [[]|e]; flow;
        [| discriminate].
      destruct (api_generate_new_token _ _ _) as [resp|[]]; flow;
        try discriminate.
      destruct (_ =? _); [destruct (_ =? _)|]; flow; discriminate.
  - subst phone. flow.
    destruct (user_input !! CONF_PHONE_NUMBER); flow; [| reflexivity].
    destruct (unique_id self); flow.
    + destruct (api_generate_new_token _ _ _) as [resp|[]]; flow;
        try reflexivity.
      destruct (_ =? _); [destruct (_ =? _)|]; flow; reflexivity.
    + destruct (host_set_unique_id _ _) as [[]|e]; flow; [| reflexivity].
      destruct (host_abort_if_unique_id_configured _ _) as [[]|e]; flow;
        [| reflexivity].
      destruct (api_generate_new_token _ _ _) as [resp|[]]; flow;
        try reflexivity.
      destruct (_ =? _); [destruct (_ =? _)|]; flow; reflexivity.
  - subst code. flow.
    destruct (user_input !! CONF_OTP) as [otp|] eqn:Hin; flow;
      [| right; split; [reflexivity | discriminate]].
    destruct (api_validate_one_time_password _ _ _ _) as [resp|e] eqn:Hapi; flow.
    + destruct (resp_res resp =? STATUS_SUCCESS) eqn:Hres; flow.
      * left. exists otp, resp. apply Z.eqb_eq in Hres.
        repeat split; try assumption. eexists. reflexivity.
      * right. split; [reflexivity | discriminate].
    + right. destruct e; flow; split; first [reflexivity | discriminate].
Qed.
End WizardProperties.

Section SetupProperties.
Context {hass : Hass} {lib : ElectraLib} {const : Const}.

(** X22.  Setup fails closed: when discovery raises an API error,
    [get_devices] and [async_setup_entry] raise [ConfigEntryNotReady] for a
    client error, else [ConfigEntryAuthFailed] for a lockout, else
    [ConfigEntryNotReady]; no entity is handed over and nothing is logged
    beyond the discovery record. *)
Theorem setup_fails_closed (api : ElectraAPI) (exp : string) :
  api_get_devices api = Raise (ElectraApiError exp) ->
  let err_message := "Error communicating with API: " +:+ exp in
  let raised :=
    if str_in "client error" exp then
      ConfigEntryNotReady (err_message +:+ ", Check your internet connection.")
    else if str_in INTRUDER_LOCKOUT err_message then
      ConfigEntryAuthFailed
        (err_message
         +:+ ", You must re-authenticate by adding the integration again")
    else ConfigEntryNotReady err_message in
  (get_devices api tt).1.1 = Raise raised
  /\ (async_setup_entry api tt).1.1 = Raise raised
  /\ (async_setup_entry api tt).2 = [Log DEBUG "Fetching Electra AC devices"].
Proof.
  intros Hapi err_message raised. subst raised err_message.
  unfold async_setup_entry, get_devices. run_poll. rewrite Hapi.
  rewrite client_error_in_err_message.
  destruct (str_in "client error" exp); [repeat split|].
  destruct (str_in INTRUDER_LOCKOUT _); repeat split.
Qed.

(** A successful discovery hands over one fresh entity per device. *)
Lemma setup_creates_fresh_entities (api : ElectraAPI)
    (devices : list ElectraAirConditioner) :
  api_get_devices api = Return devices ->
  (async_setup_entry api tt).1.1 = Return (map ElectraClimate__init__ devices).
Proof.
  intros Hapi. unfold async_setup_entry, get_devices. run_poll.
  rewrite Hapi. reflexivity.
Qed.
End SetupProperties.

(** ** The callbacks on the sample environment *)

Section SampleRuns.
#[local] Existing Instances Sample.hass Sample.lib Sample.const.
Import Sample.

(** The sample entity is what [__init__] and the first poll make of the
    sample device. *)

Example entity_after_first_poll :
  async_update 1700000000 (failing_api "timeout") (ElectraClimate__init__ device)
  = (Return tt, entity, [Log DEBUG "%s (%s) state updated: %s"]).
Proof. vm_compute. reflexivity. Qed.

(** C1 fails as stated.  With a threshold of four, the fourth failing poll
    in a row raises, although only three transport failures have occurred
    before it and the count it starts from (three) is below the
    threshold. *)

Lemma threshold_th_failure_raises :
  CONSECUTIVE_FAILURE_THRESHOLD = 4
  /\ _consecutive_failures (poll_cycles (take 3 four_timeouts) entity).2 = 3
  /\ (poll_cycles four_timeouts entity).1
     = [ Return tt; Return tt; Return tt;
         Raise (HomeAssistantError
                  "Failed to get Salon state: timeout for the 4 time") ].
Proof. vm_compute. repeat split; reflexivity. Qed.

Lemma hard_error_at_threshold_witness :
  (past_skip_window 1700000090 entity_failed_twice
   /\ _skip_update entity_failed_twice = false
   /\ _consecutive_failures entity_failed_twice = 2
   /\ api_get_last_telemtry (failing_api "timeout")
        (_electra_ac_device entity_failed_twice)
      = (Raise (ElectraApiError "timeout"), _electra_ac_device entity_failed_twice)
   /\ _skip_update entity_after_command = false
   /\ _last_state_update entity_after_command = 1700000000
   /\ _consecutive_failures entity_after_command = 0
   /\ (head four_timeouts = Some (1700000030, failing_api "timeout")
       /\ past_skip_window 1700000030 entity_after_command)
   /\ Forall (fun tick => transport_failure tick.2) four_timeouts)
  /\ (let run := async_update 1700000090 (failing_api "timeout") entity_failed_twice in
      _consecutive_failures run.1.2 = _consecutive_failures entity_failed_twice + 1
      /\ ((exists msg, run.1.1 = Raise (HomeAssistantError msg))
          <-> CONSECUTIVE_FAILURE_THRESHOLD
              <= _consecutive_failures entity_failed_twice + 1)
      /\ (run.1.1 = Return tt
          <-> _consecutive_failures entity_failed_twice + 1
              < CONSECUTIVE_FAILURE_THRESHOLD))
  /\ length (poll_cycles four_timeouts entity_after_command).1
     = length four_timeouts
  /\ _consecutive_failures (poll_cycles four_timeouts entity_after_command).2
     = _consecutive_failures entity_after_command + Z.of_nat (length four_timeouts)
  /\ forall (k : nat) (r : result unit),
       (poll_cycles four_timeouts entity_after_command).1 !! k = Some r ->
       ((exists msg, r = Raise (HomeAssistantError msg))
        <-> CONSECUTIVE_FAILURE_THRESHOLD
            <= _consecutive_failures entity_after_command + Z.of_nat (S k))
       /\ (r = Return tt
           <-> _consecutive_failures entity_after_command + Z.of_nat (S k)
               < CONSECUTIVE_FAILURE_THRESHOLD).
Proof.
  assert (Hfail : Forall (fun tick => transport_failure tick.2) four_timeouts).
  { repeat constructor; intros dev; exists "timeout", dev; reflexivity. }
  assert (Hwin2 : past_skip_window 1700000090 entity_failed_twice)
    by (left; vm_compute; reflexivity).
  assert (Hskip2 : _skip_update entity_failed_twice = false)
    by (vm_compute; reflexivity).
  assert (Hapi : api_get_last_telemtry (failing_api "timeout")
                   (_electra_ac_device entity_failed_twice)
                 = (Raise (ElectraApiError "timeout"),
                    _electra_ac_device entity_failed_twice))
    by reflexivity.
  assert (Hskip : _skip_update entity_after_command = false)
    by (vm_compute; reflexivity).
  assert (Hstamp : _last_state_update entity_after_command = 1700000000)
    by (vm_compute; reflexivity).
  assert (Hwin : past_skip_window 1700000030 entity_after_command)
    by (right; rewrite Hstamp; vm_compute; discriminate).
  assert (Hfirst : forall tick, head four_timeouts = Some tick ->
                                past_skip_window tick.1 entity_after_command)
    by (intros tick [= <-]; exact Hwin).
  split.
  { split_and!; try assumption; vm_compute; reflexivity. }
  split.
  - exact (proj1 hard_error_at_threshold 1700000090 (failing_api "timeout")
             entity_failed_twice "timeout" _ Hwin2 Hskip2 Hapi).
  - exact (proj2 hard_error_at_threshold four_timeouts entity_after_command
             Hskip Hfirst Hfail).
Defined.

(** C2 fails as stated.  An error text that holds the lockout marker next
    to the words "client error" is reported as a connection problem:
    [HomeAssistantError] from the command handler, [ConfigEntryNotReady]
    from [get_devices]. *)

Lemma client_error_text_hides_lockout :
  let api := failing_api "403 client error: INTRUDER_LOCKOUT" in
  str_in INTRUDER_LOCKOUT "403 client error: INTRUDER_LOCKOUT" = true
  /\ (_async_update_electra_ac_state 1700000000 api entity).1.1
     = Raise (HomeAssistantError
                "Error communicating with API: 403 client error: INTRUDER_LOCKOUT, Check your internet connection.")
  /\ (get_devices api tt).1.1
     = Raise (ConfigEntryNotReady
                "Error communicating with API: 403 client error: INTRUDER_LOCKOUT, Check your internet connection.").
Proof. vm_compute. repeat split; reflexivity. Qed.

Lemma lockout_requires_reauthentication_witness :
  let exp := "Too many attempts: INTRUDER_LOCKOUT" in
  let api := failing_api exp in
  (str_in INTRUDER_LOCKOUT exp = true /\ str_in "client error" exp = false)
  /\ (_async_update_electra_ac_state 1700000000 api entity).1.1
     = Raise (ConfigEntryAuthFailed
                ("Error communicating with API: " +:+ exp
                 +:+ ", You must re-authenticate by adding the integration again"))
  /\ (get_devices api tt).1.1
     = Raise (ConfigEntryAuthFailed
                ("Error communicating with API: " +:+ exp
                 +:+ ", You must re-authenticate by adding the integration again")).
Proof.
  intros exp api.
  assert (Hlock : str_in INTRUDER_LOCKOUT exp = true) by reflexivity.
  assert (Hclient : str_in "client error" exp = false) by reflexivity.
  split; [split; assumption|].
  destruct (lockout_requires_reauthentication api exp Hlock Hclient)
    as [Hcommand Hdevices].
  split; [apply (Hcommand 1700000000 entity device) | apply Hdevices];
    reflexivity.
Defined.

Example command_records_timestamp :
  _last_state_update entity_after_command = 1700000000.
Proof. reflexivity. Qed.

Lemma async_update_skips_inside_window_witness :
  (_last_state_update entity_after_command <> 0
   /\ 1700000003 < _last_state_update entity_after_command + API_DELAY)
  /\ async_update 1700000003 (answering_api telemetry ack) entity_after_command
     = (Return tt, entity_after_command,
        [Log DEBUG "Skipping state update, keeping old values"]).
Proof.
  assert (Hstamp : _last_state_update entity_after_command <> 0)
    by (vm_compute; discriminate).
  assert (Hnow : 1700000003 < _last_state_update entity_after_command + API_DELAY)
    by (vm_compute; reflexivity).
  split; [split; assumption|].
  apply (async_update_skips_inside_window 1700000003 (answering_api telemetry ack)
           entity_after_command Hstamp Hnow).
Defined.

Example entity_failed_twice_counter :
  entity_failed_twice = set_consecutive_failures 2 entity.
Proof. vm_compute. reflexivity. Qed.

(** C4 fails as stated.  The telemetry call succeeds, but the device it
    reports has been out of contact for too long: the poll returns with
    the two failures still on record and with the display attributes of
    the earlier state, not those of the fetched one. *)

Lemma fetch_of_stale_device_keeps_counter :
  let api := answering_api stale_telemetry ack in
  api_get_last_telemtry api (_electra_ac_device entity_failed_twice)
  = (Return tt, stale_telemetry)
  /\ async_update 1700000090 api entity_failed_twice
     = (Return tt,
        {| _electra_ac_device := stale_telemetry;
           _attr_name := "Salon";
           _last_state_update := 0;
           _consecutive_failures := 2;
           _skip_update := false;
           _available := false;
           _attr_available := false;
           _attr_fan_mode := Some "low";
           _attr_current_temperature := Some 27;
           _attr_target_temperature := Some 24;
           _attr_hvac_mode := Some HVACMode.COOL;
           _attr_hvac_action := Some HVACAction.COOLING;
           _attr_swing_mode := Some "both";
           _attr_preset_mode := Some "None" |},
        [ GetLastTelemtry device;
          Log WARNING
            "Electra AC %s (%s) is not available, check its status in the Electra Smart mobile app" ]).
Proof. vm_compute. split; reflexivity. Qed.

Lemma async_update_counts_and_recopies_witness :
  let api := answering_api telemetry ack in
  let run := async_update 1700000090 api entity_failed_twice in
  (past_skip_window 1700000090 entity_failed_twice
   /\ _skip_update entity_failed_twice = false
   /\ api_get_last_telemtry api (_electra_ac_device entity_failed_twice)
      = (Return tt, telemetry)
   /\ is_disconnected telemetry UNAVAILABLE_THRESH_SEC = false)
  /\ run.1.1 = Return tt
  /\ _consecutive_failures run.1.2 = 0
  /\ _attr_fan_mode run.1.2 = Some "high"
  /\ _attr_hvac_mode run.1.2 = Some HVACMode.HEAT
  /\ _attr_swing_mode run.1.2 = Some "off"
  /\ _attr_preset_mode run.1.2 = Some "Shabat".
Proof.
  intros api run.
  assert (Hwin : past_skip_window 1700000090 entity_failed_twice)
    by (left; reflexivity).
  split; [repeat split; first [exact Hwin | reflexivity]|].
  assert (Hskip : _skip_update entity_failed_twice = false) by reflexivity.
  assert (Hapi : api_get_last_telemtry api (_electra_ac_device entity_failed_twice)
                 = (Return tt, telemetry)) by reflexivity.
  assert (Hrun : async_update 1700000090 api entity_failed_twice
                 = (run.1.1, run.1.2, run.2)) by (vm_compute; reflexivity).
  assert (Hconn : is_disconnected telemetry UNAVAILABLE_THRESH_SEC = false)
    by reflexivity.
  assert (Hout : run.1.1 = Return tt) by (vm_compute; reflexivity).
  destruct (async_update_counts_and_recopies 1700000090 api
              entity_failed_twice run.1.2 (Return tt) run.1.1 telemetry run.2
              Hwin Hskip Hapi Hrun)
    as [_ Hfetched].
  destruct (Hfetched eq_refl Hconn) as (Hcount & _ & Hvalues).
  destruct (Hvalues Hout) as (Hfan & _ & _ & Hmode & _ & Hswing & Hpreset & _).
  split; [exact Hout|]. split; [exact Hcount|].
  rewrite Hfan, Hmode, Hswing, Hpreset.
  vm_compute. repeat split; reflexivity.
Defined.

Lemma async_update_disconnected_returns_early_witness :
  let api := answering_api stale_telemetry ack in
  (past_skip_window 1700000090 entity_failed_twice
   /\ _skip_update entity_failed_twice = false
   /\ api_get_last_telemtry api (_electra_ac_device entity_failed_twice)
      = (Return tt, stale_telemetry)
   /\ is_disconnected stale_telemetry UNAVAILABLE_THRESH_SEC = true)
  /\ exists (self' : ElectraClimate) (t : list event),
       async_update 1700000090 api entity_failed_twice = (Return tt, self', t)
       /\ _consecutive_failures self' = _consecutive_failures entity_failed_twice
       /\ _attr_available self' = false
       /\ _attr_fan_mode self' = _attr_fan_mode entity_failed_twice
       /\ _attr_current_temperature self'
          = _attr_current_temperature entity_failed_twice
       /\ _attr_target_temperature self'
          = _attr_target_temperature entity_failed_twice
       /\ _attr_hvac_mode self' = _attr_hvac_mode entity_failed_twice
       /\ _attr_hvac_action self' = _attr_hvac_action entity_failed_twice
       /\ _attr_swing_mode self' = _attr_swing_mode entity_failed_twice
       /\ _attr_preset_mode self' = _attr_preset_mode entity_failed_twice.
Proof.
  intros api.
  assert (Hwin : past_skip_window 1700000090 entity_failed_twice)
    by (left; reflexivity).
  split; [repeat split; first [exact Hwin | reflexivity]|].
  apply (async_update_disconnected_returns_early 1700000090 api
           entity_failed_twice stale_telemetry Hwin); reflexivity.
Defined.

Lemma negative_ack_writes_then_raises_witness :
  let api := answering_api telemetry nack in
  (api_set_state api (_electra_ac_device entity) = (Return nack, device)
   /\ ~ (resp_status nack = STATUS_SUCCESS /\ resp_res nack = STATUS_SUCCESS))
  /\ _async_update_electra_ac_state 1700000000 api entity
     = (Raise (HomeAssistantError
                 "Failed to update Salon, error: {'status': 0, 'data': {'res': 1}}"),
        entity,
        [SetState device; WriteHaState entity])
  /\ _last_state_update entity = 0.
Proof.
  intros api.
  assert (Hapi : api_set_state api (_electra_ac_device entity)
                 = (Return nack, device)) by reflexivity.
  assert (Hnack : ~ (resp_status nack = STATUS_SUCCESS
                     /\ resp_res nack = STATUS_SUCCESS))
    by (intros [_ Hres]; discriminate Hres).
  split; [split; assumption|].
  destruct (negative_ack_writes_then_raises 1700000000 api entity nack device
              Hapi Hnack) as (Hrun & _ & _).
  split; [rewrite Hrun; vm_compute | ]; reflexivity.
Defined.

Lemma swing_mode_derivation_witness :
  _update_device_attrs (set_electra_ac_device telemetry entity)
  = (Return tt, (_update_device_attrs (set_electra_ac_device telemetry entity)).1.2, [])
  /\ _attr_swing_mode
       (_update_device_attrs (set_electra_ac_device telemetry entity)).1.2
     = Some SWING_OFF.
Proof.
  assert (Hrun : _update_device_attrs (set_electra_ac_device telemetry entity)
                 = (Return tt,
                    (_update_device_attrs
                       (set_electra_ac_device telemetry entity)).1.2, []))
    by (vm_compute; reflexivity).
  split; [exact Hrun|].
  destruct (swing_mode_derivation _ _ _ Hrun) as (_ & Hoff & _ & _).
  apply Hoff; reflexivity.
Defined.

Lemma translation_tables_round_trip_witness :
  (NoDup [FAN_SPEED_AUTO; FAN_SPEED_LOW; FAN_SPEED_MED; FAN_SPEED_HIGH]
   /\ NoDup [FAN_AUTO; FAN_LOW; FAN_MEDIUM; FAN_HIGH]
   /\ NoDup [MODE_COOL; MODE_HEAT; MODE_FAN; MODE_DRY; MODE_AUTO])
  /\ (exists v, FAN_HASS_TO_ELECTRA !! FAN_MEDIUM = Some v
                /\ FAN_ELECTRA_TO_HASS !! v = Some FAN_MEDIUM)
  /\ (exists v, HVAC_MODE_HASS_TO_ELECTRA !! HVACMode.FAN_ONLY = Some v
                /\ HVAC_MODE_ELECTRA_TO_HASS !! v = Some HVACMode.FAN_ONLY).
Proof.
  assert (Hvendor : NoDup [FAN_SPEED_AUTO; FAN_SPEED_LOW; FAN_SPEED_MED;
                           FAN_SPEED_HIGH])
    by (apply (bool_decide_unpack _); vm_compute; exact I).
  assert (Hhost : NoDup [FAN_AUTO; FAN_LOW; FAN_MEDIUM; FAN_HIGH])
    by (apply (bool_decide_unpack _); vm_compute; exact I).
  assert (Hmode : NoDup [MODE_COOL; MODE_HEAT; MODE_FAN; MODE_DRY; MODE_AUTO])
    by (apply (bool_decide_unpack _); vm_compute; exact I).
  split; [repeat split; assumption|].
  destruct (translation_tables_round_trip Hvendor Hhost Hmode)
    as (Hfan & _ & _ & Hhvac & _ & _).
  split.
  - apply Hfan. unfold _attr_fan_modes. rewrite !elem_of_cons. tauto.
  - apply Hhvac; [| discriminate].
    unfold _attr_hvac_modes. rewrite !elem_of_cons. tauto.
Defined.

(** C6 fails as stated.  The token request comes back with a non-success
    result under a non-success outer status: the wizard shows no error
    and moves on to the OTP form. *)



Lemma otp_success_creates_entry_witness :
  (_phone_number session = Some "0501234567"
   /\ _imei session = Some "356938035643809"
   /\ otp_input !! CONF_OTP = Some "4821"
   /\ api_validate_one_time_password (answering_api device ack)
        (Some "4821") (Some "356938035643809") (Some "0501234567") = Return ack
   /\ resp_res ack = STATUS_SUCCESS)
  /\ (_validate_one_time_password (answering_api device ack) otp_input session).1.1
     = Return (async_create_entry (Some "0501234567")
                 (dict [ ("token", Some "tok-5f2a");
                         ("imei", Some "356938035643809");
                         ("phone_number", Some "0501234567") ])).
Proof.
  assert (Hphone : _phone_number session = Some "0501234567") by reflexivity.
  assert (Himei : _imei session = Some "356938035643809") by reflexivity.
  assert (Hin : otp_input !! CONF_OTP = Some "4821") by reflexivity.
  assert (Hres : resp_res ack = STATUS_SUCCESS) by reflexivity.
  split; [repeat split; first [assumption | reflexivity]|].
  destruct (otp_success_creates_entry (answering_api device ack)
              "4821" "0501234567" "356938035643809" otp_input session ack
              Hphone Himei Hin eq_refl Hres) as [Hrun _].
  rewrite Hrun. reflexivity.
Defined.

End SampleRuns.

(** ** The further properties on the sample environment *)

Section SampleChecks.
#[local] Existing Instances Sample.hass Sample.lib Sample.const
  Sample.electra_device Sample.service_call.
Import Sample.

(** The sample setters are lawful and the answering API acknowledges. *)
Lemma sample_setters_lawful : lawful_setters.
Proof. constructor; intros; eexists; repeat split. Qed.

Lemma sample_api_acknowledges : acknowledges (answering_api telemetry ack).
Proof. intros d. exists ack. repeat split. Qed.

Lemma sample_device_translatable : translatable device.
Proof.
  split; [eexists; vm_compute; reflexivity|]. intros _.
  split; [eexists; vm_compute; reflexivity|]. intros _.
  eexists; vm_compute; reflexivity.
Qed.

Lemma only_transport_errors_count_witness :
  let run := async_update 1700000030 broken_api entity in
  (past_skip_window 1700000030 entity
   /\ _skip_update entity = false
   /\ api_get_last_telemtry broken_api (_electra_ac_device entity)
      = (Raise KeyError, device)
   /\ (forall msg, KeyError <> ElectraApiError msg))
  /\ run.1.1 = Raise KeyError
  /\ _consecutive_failures run.1.2 = _consecutive_failures entity
  /\ display_attributes run.1.2 = display_attributes entity
  /\ ~ warns run.2.
Proof.
  assert (Hwin : past_skip_window 1700000030 entity) by (left; reflexivity).
  assert (Hother : forall msg, KeyError <> ElectraApiError msg) by discriminate.
  split; [split_and!; first [reflexivity | exact Hwin | exact Hother]|].
  exact (only_transport_errors_count 1700000030 broken_api entity KeyError device
           Hwin eq_refl eq_refl Hother).
Defined.

Lemma warning_only_on_availability_change_witness :
  let api := answering_api stale_telemetry ack in
  let run := async_update 1700000030 api entity in
  (past_skip_window 1700000030 entity
   /\ _skip_update entity = false
   /\ api_get_last_telemtry api (_electra_ac_device entity)
      = (Return tt, stale_telemetry))
  /\ (warns run.2
      <-> _available entity
          = is_disconnected stale_telemetry UNAVAILABLE_THRESH_SEC)
  /\ (run.1.1 = Return tt ->
      _available run.1.2
      = negb (is_disconnected stale_telemetry UNAVAILABLE_THRESH_SEC)).
Proof.
  intros api.
  assert (Hwin : past_skip_window 1700000030 entity) by (left; reflexivity).
  split; [repeat split; exact Hwin|].
  exact (warning_only_on_availability_change 1700000030 api entity stale_telemetry
           Hwin eq_refl eq_refl).
Defined.


Lemma powered_off_device_needs_no_mode_witness :
  let self := set_electra_ac_device off_device entity in
  (is_on (_electra_ac_device self) = false
   /\ is_Some (FAN_ELECTRA_TO_HASS !! get_fan_speed (_electra_ac_device self))
   /\ HVAC_MODE_ELECTRA_TO_HASS !! get_mode (_electra_ac_device self) = None)
  /\ (_update_device_attrs self).1.1 = Return tt
  /\ _attr_hvac_mode (_update_device_attrs self).1.2 = Some HVACMode.OFF
  /\ _attr_hvac_action (_update_device_attrs self).1.2 = Some HVACAction.OFF.
Proof.
  intros self.
  assert (Hfan : is_Some (FAN_ELECTRA_TO_HASS
                            !! get_fan_speed (_electra_ac_device self)))
    by (eexists; vm_compute; reflexivity).
  split; [repeat split; first [exact Hfan | vm_compute; reflexivity]|].
  exact (powered_off_device_needs_no_mode self eq_refl Hfan).
Defined.

Lemma failed_reconciliation_is_partial_witness :
  let self := set_electra_ac_device turbo_device entity in
  _update_device_attrs self = (Raise KeyError, self, [])
  /\ KeyError = KeyError
  /\ _attr_hvac_action self = _attr_hvac_action self
  /\ _attr_swing_mode self = _attr_swing_mode self
  /\ _attr_preset_mode self = _attr_preset_mode self
  /\ (FAN_ELECTRA_TO_HASS !! get_fan_speed (_electra_ac_device self) = None ->
      self = self).
Proof.
  intros self.
  assert (Hrun : _update_device_attrs self = (Raise KeyError, self, []))
    by (vm_compute; reflexivity).
  split; [exact Hrun|].
  exact (failed_reconciliation_is_partial self self KeyError [] Hrun).
Defined.

Lemma acknowledged_command_may_fail_to_translate_witness :
  let self := set_electra_ac_device turbo_device entity in
  let api := answering_api telemetry ack in
  let run := _async_update_electra_ac_state 1700000000 api self in
  (api_set_state api (_electra_ac_device self) = (Return ack, turbo_device)
   /\ resp_status ack = STATUS_SUCCESS
   /\ resp_res ack = STATUS_SUCCESS
   /\ ~ translatable turbo_device)
  /\ run.1.1 = Raise KeyError
  /\ run.2 = [SetState (_electra_ac_device self)]
  /\ _last_state_update run.1.2 = _last_state_update self.
Proof.
  intros self api.
  assert (Hbad : ~ translatable turbo_device).
  { intros [[f Hf] _]. vm_compute in Hf. discriminate Hf. }
  split; [split_and!; first [reflexivity | exact Hbad]|].
  exact (acknowledged_command_may_fail_to_translate 1700000000 api self ack
           turbo_device eq_refl eq_refl eq_refl Hbad).
Defined.

Lemma unclassified_command_error_is_swallowed_witness :
  let api := failing_api "timeout" in
  (api_set_state api (_electra_ac_device entity)
   = (Raise (ElectraApiError "timeout"), device)
   /\ str_in "client error" "timeout" = false
   /\ str_in INTRUDER_LOCKOUT ("Error communicating with API: " +:+ "timeout")
      = false)
  /\ _async_update_electra_ac_state 1700000000 api entity
     = (Return tt, entity, [SetState device; WriteHaState entity])
  /\ _last_state_update entity = 0.
Proof.
  intros api.
  assert (Hclient : str_in "client error" "timeout" = false) by reflexivity.
  assert (Hlock : str_in INTRUDER_LOCKOUT
                    ("Error communicating with API: " +:+ "timeout") = false)
    by (vm_compute; reflexivity).
  split; [repeat split; assumption|].
  destruct (unclassified_command_error_is_swallowed 1700000000 api entity
              "timeout" device eq_refl Hclient Hlock) as (Hrun & _ & _).
  split; [rewrite Hrun|]; reflexivity.
Defined.

Lemma acknowledged_command_opens_skip_window_witness :
  let api := answering_api telemetry ack in
  let run := _async_update_electra_ac_state 1700000000 api entity in
  (api_set_state api (_electra_ac_device entity) = (Return ack, device)
   /\ resp_status ack = STATUS_SUCCESS
   /\ resp_res ack = STATUS_SUCCESS
   /\ translatable device
   /\ 1700000000 <> 0)
  /\ run.1.1 = Return tt
  /\ _last_state_update run.1.2 = 1700000000
  /\ async_update 1700000004 (failing_api "timeout") run.1.2
     = (Return tt, run.1.2,
        [Log DEBUG "Skipping state update, keeping old values"])
  /\ _last_state_update
       (async_update 1700000005 (failing_api "timeout") run.1.2).1.2 = 0.
Proof.
  intros api run.
  assert (Hnow : 1700000000 <> 0) by discriminate.
  split; [split_and!; first [reflexivity | exact sample_device_translatable
                            | exact Hnow]|].
  assert (Hst : resp_status ack = STATUS_SUCCESS) by reflexivity.
  assert (Hres : resp_res ack = STATUS_SUCCESS) by reflexivity.
  destruct (acknowledged_command_opens_skip_window 1700000000 api entity ack
              device eq_refl Hst Hres sample_device_translatable Hnow)
    as (Hret & _ & Hlast & Hin & Hout).
  split; [exact Hret|]. split; [exact Hlast|].
  split; [apply Hin | apply Hout]; vm_compute; first [reflexivity | discriminate].
Defined.


Lemma swing_modes_follow_features_witness :
  NoDup [SWING_VERTICAL; SWING_HORIZONTAL; SWING_BOTH; SWING_OFF]
  /\ _attr_swing_modes [H_SWING] = ["horizontal"; "off"]
  /\ _attr_swing_modes [V_SWING; H_SWING]
     = ["vertical"; "horizontal"; "both"; "off"]
  /\ (SWING_BOTH ∈ _attr_swing_modes [V_SWING; H_SWING]
      <-> V_SWING ∈ [V_SWING; H_SWING] /\ H_SWING ∈ [V_SWING; H_SWING]).
Proof.
  assert (Hswing : NoDup [SWING_VERTICAL; SWING_HORIZONTAL; SWING_BOTH;
                          SWING_OFF])
    by (apply (bool_decide_unpack _); vm_compute; exact I).
  split; [exact Hswing|]. split; [vm_compute; reflexivity|].
  split; [vm_compute; reflexivity|].
  destruct (swing_modes_follow_features [V_SWING; H_SWING] Hswing)
    as (_ & _ & Hboth & _).
  exact Hboth.
Defined.

Lemma fan_mode_command_round_trip_witness :
  let api := answering_api telemetry ack in
  let run := async_set_fan_mode 1700000000 api "high" entity in
  (lawful_setters
   /\ acknowledges api
   /\ NoDup [FAN_SPEED_AUTO; FAN_SPEED_LOW; FAN_SPEED_MED; FAN_SPEED_HIGH]
   /\ NoDup [FAN_AUTO; FAN_LOW; FAN_MEDIUM; FAN_HIGH]
   /\ "high" ∈ _attr_fan_modes
   /\ translatable (_electra_ac_device entity))
  /\ _attr_fan_mode run.1.2 = Some "high"
  /\ get_fan_speed (_electra_ac_device run.1.2) = "HIGH"
  /\ run.1.1 = Return tt
  /\ _last_state_update run.1.2 = 1700000000.
Proof.
  intros api run.
  assert (Hvendor : NoDup [FAN_SPEED_AUTO; FAN_SPEED_LOW; FAN_SPEED_MED;
                           FAN_SPEED_HIGH])
    by (apply (bool_decide_unpack _); vm_compute; exact I).
  assert (Hhost : NoDup [FAN_AUTO; FAN_LOW; FAN_MEDIUM; FAN_HIGH])
    by (apply (bool_decide_unpack _); vm_compute; exact I).
  assert (Hin : "high" ∈ _attr_fan_modes)
    by (unfold _attr_fan_modes; rewrite !elem_of_cons; right; left; reflexivity).
  split; [split_and!;
          first [ exact sample_setters_lawful | exact sample_api_acknowledges
                | exact sample_device_translatable | assumption ]|].
  destruct (fan_mode_command_round_trip 1700000000 api entity "high"
              sample_setters_lawful sample_api_acknowledges Hvendor Hhost Hin)
    as (Hfan & _ & Hreturns).
  destruct (Hreturns sample_device_translatable) as [Hret Hlast].
  split; [exact Hfan|]. split; [vm_compute; reflexivity|].
  split; [exact Hret | exact Hlast].
Defined.

Lemma swing_mode_command_round_trip_witness :
  let api := answering_api telemetry ack in
  let run := async_set_swing_mode 1700000000 api "vertical" entity in
  (lawful_setters /\ acknowledges api
   /\ translatable (_electra_ac_device entity))
  /\ run.1.1 = Return tt
  /\ _last_state_update run.1.2 = 1700000000
  /\ _attr_swing_mode run.1.2 = Some "vertical".
Proof.
  intros api run.
  split; [split_and!;
          first [ exact sample_setters_lawful | exact sample_api_acknowledges
                | exact sample_device_translatable ]|].
  destruct (swing_mode_command_round_trip 1700000000 api entity "vertical"
              sample_setters_lawful sample_api_acknowledges
              sample_device_translatable)
    as (Hret & Hlast & Hswing).
  split; [exact Hret|]. split; [exact Hlast|].
  unfold run. rewrite Hswing. vm_compute. reflexivity.
Defined.

Lemma hvac_mode_command_round_trip_witness :
  let api := answering_api telemetry ack in
  let run := async_set_hvac_mode 1700000000 api HVACMode.HEAT entity in
  (lawful_setters /\ acknowledges api
   /\ NoDup [MODE_COOL; MODE_HEAT; MODE_FAN; MODE_DRY; MODE_AUTO]
   /\ HVACMode.HEAT ∈ _attr_hvac_modes
   /\ is_Some (FAN_ELECTRA_TO_HASS !! get_fan_speed (_electra_ac_device entity)))
  /\ run.1.1 = Return tt
  /\ _attr_hvac_mode run.1.2 = Some HVACMode.HEAT
  /\ is_on (_electra_ac_device run.1.2) = true
  /\ _last_state_update run.1.2 = 1700000000.
Proof.
  intros api run.
  assert (Hmode : NoDup [MODE_COOL; MODE_HEAT; MODE_FAN; MODE_DRY; MODE_AUTO])
    by (apply (bool_decide_unpack _); vm_compute; exact I).
  assert (Hin : HVACMode.HEAT ∈ _attr_hvac_modes)
    by (unfold _attr_hvac_modes; rewrite !elem_of_cons; right; left; reflexivity).
  assert (Hfan : is_Some (FAN_ELECTRA_TO_HASS
                            !! get_fan_speed (_electra_ac_device entity)))
    by (eexists; vm_compute; reflexivity).
  split; [split_and!;
          first [ exact sample_setters_lawful | exact sample_api_acknowledges
                | assumption ]|].
  exact (hvac_mode_command_round_trip 1700000000 api entity HVACMode.HEAT
           sample_setters_lawful sample_api_acknowledges Hmode Hin Hfan).
Defined.

Lemma rejected_arguments_touch_nothing_witness :
  let api := answering_api telemetry ack in
  ("turbo" ∉ _attr_fan_modes)
  /\ async_set_fan_mode 1700000000 api "turbo" entity
     = (Raise KeyError, entity, [])
  /\ async_set_hvac_mode 1700000000 api HVACMode.HEAT_COOL entity
     = (Raise KeyError, entity, [])
  /\ async_set_temperature 1700000000 api ∅ entity
     = (Raise KeyError, entity, []).
Proof.
  intros api.
  assert (Hout : "turbo" ∉ _attr_fan_modes).
  { unfold _attr_fan_modes. rewrite !not_elem_of_cons.
    split_and!; first [discriminate | apply not_elem_of_nil]. }
  destruct (rejected_arguments_touch_nothing 1700000000 api entity)
    as (Hfan & Hmode & Htemp & _).
  split; [exact Hout|]. split; [exact (Hfan "turbo" Hout)|].
  split; [exact Hmode|]. apply Htemp. reflexivity.
Defined.

Lemma wizard_transport_errors_redisplay_witness :
  (_validate_phone_number fresh_host (failing_api "timeout")
     "356938035643809" phone_input ConfigFlow__init__).1.1
  = Return (async_show_form "user"
              (dict [ (CONF_PHONE_NUMBER, Some "0501234567") ])
              (dict [ ("base", "cannot_connect") ]))
  /\ (_validate_one_time_password (failing_api "timeout") otp_input session).1.1
     = Return (async_show_form CONF_OTP
                 (dict [ (CONF_OTP, Some "4821") ])
                 (dict [ ("base", "cannot_connect") ])).
Proof.
  destruct wizard_transport_errors_redisplay as [Hphone Hotp].
  split.
  - apply (Hphone fresh_host (failing_api "timeout") "356938035643809"
             "0501234567" "timeout" phone_input ConfigFlow__init__);
      [reflexivity | right; split; reflexivity | reflexivity].
  - apply (Hotp (failing_api "timeout") "4821" "timeout" otp_input session);
      [reflexivity | discriminate | reflexivity].
Defined.

Lemma wizard_end_to_end_witness :
  let api := answering_api device ack in
  let first := async_step_user fresh_host api "356938035643809"
                 (Some phone_input) ConfigFlow__init__ in
  let second := async_step_one_time_password api (Some otp_input) None
                  first.1.2 in
  (phone_input !! CONF_PHONE_NUMBER = Some "0501234567"
   /\ otp_input !! CONF_OTP = Some "4821")
  /\ first.1.1
     = Return (async_show_form CONF_OTP (dict [ (CONF_OTP, None) ]) ∅)
  /\ second.1.1
     = Return (async_create_entry (Some "0501234567")
                 (dict [ (CONF_TOKEN, Some "tok-5f2a");
                         (CONF_IMEI, Some "356938035643809");
                         (CONF_PHONE_NUMBER, Some "0501234567") ]))
  /\ unique_id second.1.2 = Some "0501234567"
  /\ first.2 ++ second.2
     = [ GenerateNewToken (Some "0501234567") (Some "356938035643809");
         ValidateOneTimePassword (Some "4821") (Some "356938035643809")
           (Some "0501234567") ].
Proof.
  intros api.
  assert (Hphone : phone_input !! CONF_PHONE_NUMBER = Some "0501234567")
    by reflexivity.
  assert (Hotp : otp_input !! CONF_OTP = Some "4821") by reflexivity.
  assert (Hok : resp_status ack = STATUS_SUCCESS -> resp_res ack = STATUS_SUCCESS)
    by reflexivity.
  assert (Hres : resp_res ack = STATUS_SUCCESS) by reflexivity.
  split; [split; assumption|].
  exact (wizard_end_to_end fresh_host api "356938035643809" "0501234567" "4821"
           phone_input otp_input ack ack Hphone Hotp eq_refl eq_refl eq_refl
           Hok eq_refl Hres).
Defined.

(** Another number typed into the phone form of the sample session. *)
Lemma unique_id_is_set_once_witness :
  let other : gmap string string := dict [ ("phone_number", "0527654321") ] in
  let run := _validate_phone_number busy_host (answering_api device ack)
               "490154203237518" other session in
  unique_id session = Some "0501234567"
  /\ run = _validate_phone_number fresh_host (answering_api device ack)
             "490154203237518" other session
  /\ unique_id run.1.2 = Some "0501234567"
  /\ _phone_number run.1.2 = Some "0527654321".
Proof.
  intros other run.
  assert (Hid : unique_id session = Some "0501234567") by reflexivity.
  split; [exact Hid|].
  destruct (unique_id_is_set_once busy_host fresh_host (answering_api device ack)
              "490154203237518" "0501234567" other session Hid)
    as (Hsame & Hkept & Hstored).
  split; [exact Hsame|]. split; [exact Hkept|].
  apply Hstored. reflexivity.
Defined.

Lemma abort_precedes_api_call_witness :
  let run := _validate_phone_number busy_host (answering_api device ack)
               "356938035643809" phone_input ConfigFlow__init__ in
  (phone_input !! CONF_PHONE_NUMBER = Some "0501234567"
   /\ unique_id ConfigFlow__init__ = None
   /\ host_set_unique_id busy_host "0501234567" = Return tt
   /\ host_abort_if_unique_id_configured busy_host (Some "0501234567")
      = Raise (AbortFlow "already_configured"))
  /\ run.1.1 = Raise (AbortFlow "already_configured")
  /\ run.2 = []
  /\ _token run.1.2 = _token ConfigFlow__init__.
Proof.
  intros run.
  assert (Hin : phone_input !! CONF_PHONE_NUMBER = Some "0501234567")
    by reflexivity.
  split; [split_and!; first [exact Hin | reflexivity]|].
  apply (abort_precedes_api_call busy_host (answering_api device ack)
           "356938035643809" "0501234567" phone_input ConfigFlow__init__
           (AbortFlow "already_configured") Hin eq_refl).
  right. split; reflexivity.
Defined.

Lemma missing_field_raises_KeyError_witness :
  otp_input !! CONF_PHONE_NUMBER = None
  /\ async_step_user fresh_host (answering_api device ack) "356938035643809"
       (Some otp_input) ConfigFlow__init__
     = (Raise KeyError, ConfigFlow__init__, []).
Proof.
  assert (Hnone : otp_input !! CONF_PHONE_NUMBER = None) by reflexivity.
  split; [exact Hnone|].
  destruct (missing_field_raises_KeyError fresh_host (answering_api device ack)
              "356938035643809" otp_input ConfigFlow__init__) as [Hphone _].
  exact (Hphone Hnone).
Defined.

Lemma setup_fails_closed_witness :
  let api := failing_api "Too many attempts: INTRUDER_LOCKOUT" in
  api_get_devices api
  = Raise (ElectraApiError "Too many attempts: INTRUDER_LOCKOUT")
  /\ (async_setup_entry api tt).1.1
     = Raise (ConfigEntryAuthFailed
                "Error communicating with API: Too many attempts: INTRUDER_LOCKOUT, You must re-authenticate by adding the integration again")
  /\ (async_setup_entry api tt).2 = [Log DEBUG "Fetching Electra AC devices"].
Proof.
  intros api. split; [reflexivity|].
  destruct (setup_fails_closed api "Too many attempts: INTRUDER_LOCKOUT" eq_refl)
    as (_ & Hsetup & Htrace).
  split; [rewrite Hsetup; vm_compute; reflexivity | exact Htrace].
Defined.

End SampleChecks.
